(** * Outfit catalog service: index / metadata consistency

    A shallow embedding of [main.py]: the FastAPI handlers [analyze_outfit],
    [add_item], [rebuild_index], [search_image] and [delete_item], the
    module-level start-up code, and the two process-wide globals [index]
    and [metadata] together with the files they are persisted to.

    What is outside the program is kept abstract:
    - the CLIP model and the numpy arithmetic on its float32 outputs
      (the fields of the class [Provider]);
    - the YOLOS detector behind [segment_clothing], which gives the
      detections and the shape of the image read;
    - [uuid.uuid4], a supply of names.
    File names are keys of the image directory, the comments file holds
    strings and comment/tags objects, and writes to the disk succeed, but
    for [cv2.imwrite] on a crop without pixels, which raises.  Strings are
    held as their UTF-8 bytes, and [str.strip] strips the white space of
    Unicode.  The bound of a search is compared as numpy compares it,
    rounded to float32.
    The FAISS flat index is modelled by what it stores (the vectors, by
    position) and by the documented result layout of [IndexFlatL2.search]:
    exactly [k] slots, nearest first, the slots for which no vector is left
    filled with label [-1] and distance [FLT_MAX]. *)

From Stdlib Require Import QArith ZArith Ascii String List Sorted Permutation.
From stdpp Require Import gmap strings list.

Local Open Scope string_scope.

(** ** Python strings

    A [str] is held as its UTF-8 bytes, one [ascii] per byte, as a string
    literal of this file is. *)

Module PyStr.

(** [str.isspace], by the UTF-8 encoding of the code point.  One byte:
    U+0009 to U+000D, U+001C to U+0020. *)
Definition is_space (c : ascii) : bool :=
  let n := nat_of_ascii c in
  ((9 <=? n) && (n <=? 13) || (28 <=? n) && (n <=? 32))%nat.

(** Two bytes: U+0085 and U+00A0. *)
Definition is_space2 (c1 c2 : ascii) : bool :=
  let n2 := nat_of_ascii c2 in
  ((nat_of_ascii c1 =? 194) && ((n2 =? 133) || (n2 =? 160)))%nat.

(** Three bytes: U+1680, U+2000 to U+200A, U+2028, U+2029, U+202F, U+205F
    and U+3000. *)
Definition is_space3 (c1 c2 c3 : ascii) : bool :=
  let n1 := nat_of_ascii c1 in
  let n2 := nat_of_ascii c2 in
  let n3 := nat_of_ascii c3 in
  ((n1 =? 225) && (n2 =? 154) && (n3 =? 128)
   || (n1 =? 226) && (n2 =? 128)
      && ((128 <=? n3) && (n3 <=? 138)
          || (n3 =? 168) || (n3 =? 169) || (n3 =? 175))
   || (n1 =? 226) && (n2 =? 129) && (n3 =? 159)
   || (n1 =? 227) && (n2 =? 128) && (n3 =? 128))%nat.

Definition is_empty (s : string) : bool :=
  match s with EmptyString => true | _ => false end.

(** [s.split(sep)] for a one-character separator. *)
Fixpoint split (sep : ascii) (s : string) : list string :=
  match s with
  | EmptyString => [EmptyString]
  | String c r =>
      if Ascii.eqb c sep then EmptyString :: split sep r
      else match split sep r with
           | [] => [String c EmptyString]
           | h :: t => String c h :: t
           end
  end.

(** Dropping from the front every character that [p1], [p2] or [p3]
    recognises by its one, two or three bytes. *)
Fixpoint lstrip_by (p1 : ascii -> bool) (p2 : ascii -> ascii -> bool)
  (p3 : ascii -> ascii -> ascii -> bool) (s : string) : string :=
  match s with
  | EmptyString => EmptyString
  | String c1 r1 =>
      if p1 c1 then lstrip_by p1 p2 p3 r1
      else
        match r1 with
        | EmptyString => s
        | String c2 r2 =>
            if p2 c1 c2 then lstrip_by p1 p2 p3 r2
            else
              match r2 with
              | EmptyString => s
              | String c3 r3 =>
                  if p3 c1 c2 c3 then lstrip_by p1 p2 p3 r3 else s
              end
        end
  end.

Fixpoint reverse (s : string) : string :=
  match s with
  | EmptyString => EmptyString
  | String c r => reverse r ++ String c EmptyString
  end.

Definition lstrip (s : string) : string :=
  lstrip_by is_space is_space2 is_space3 s.

(** The same from the back: the bytes of a character are met last
    first. *)
Definition rstrip (s : string) : string :=
  reverse
    (lstrip_by is_space (fun c2 c1 => is_space2 c1 c2)
       (fun c3 c2 c1 => is_space3 c1 c2 c3) (reverse s)).

Definition strip (s : string) : string := rstrip (lstrip s).

(** [sep.join(parts)] *)
Fixpoint join (sep : string) (parts : list string) : string :=
  match parts with
  | [] => EmptyString
  | [p] => p
  | p :: rest => p ++ sep ++ join sep rest
  end.

End PyStr.

(** ** Python dicts, in insertion order *)

Module PyDict.

Definition t (V : Type) : Type := list (string * V).

Fixpoint get {V} (k : string) (d : t V) : option V :=
  match d with
  | [] => None
  | (k', v) :: r => if String.eqb k' k then Some v else get k r
  end.

Definition mem {V} (k : string) (d : t V) : bool :=
  match get k d with Some _ => true | None => false end.

(** [d[k] = v]: an existing key keeps its place, a new one goes last. *)
Fixpoint set {V} (k : string) (v : V) (d : t V) : t V :=
  match d with
  | [] => [(k, v)]
  | (k', v') :: r =>
      if String.eqb k' k then (k, v) :: r else (k', v') :: set k v r
  end.

(** [del d[k]], for a key that is present. *)
Fixpoint remove {V} (k : string) (d : t V) : t V :=
  match d with
  | [] => []
  | (k', v') :: r =>
      if String.eqb k' k then r else (k', v') :: remove k r
  end.

Definition keys {V} (d : t V) : list string := map fst d.
Definition values {V} (d : t V) : list V := map snd d.

End PyDict.

(** ** Data model *)

Definition bytes : Type := list Byte.byte.

(** An element of the [metadata] list. *)
Record Item : Type := mkItem {
  filename : string;
  comment : string;
  tags : list string
}.

(** A value of the comments file: the legacy plain string, or the object
    [{"comment": ..., "tags": ...}], either key of which may be absent.
    These are the shapes the handlers write and read; a comments file
    holding valid JSON of another shape is not represented. *)
Inductive CatalogValue : Type :=
| Legacy (text : string)
| Entry (entry_comment : option string) (entry_tags : option (list string)).

(** What [open] followed by [json.load] (or [faiss.read_index]) finds. *)
Inductive File (A : Type) : Type :=
| Missing
| Corrupt
| Content (a : A).
Arguments Missing {A}.
Arguments Corrupt {A}.
Arguments Content {A} a.

Inductive exn : Type :=
| FileNotFoundError (path : string)
| JSONDecodeError (path : string)
| ReadIndexError (path : string)
| KeyError (key : string)
| IndexError
| UnidentifiedImageError
| DetectorError
| CvError.

(** [str(e)], in the wording of the common case of each error. *)
Definition exn_str (e : exn) : string :=
  match e with
  | FileNotFoundError p => "[Errno 2] No such file or directory: '" ++ p ++ "'"
  | JSONDecodeError _ => "Expecting value: line 1 column 1 (char 0)"
  | ReadIndexError p => "Error: could not read index " ++ p
  | KeyError k => "'" ++ k ++ "'"
  | IndexError => "list index out of range"
  | UnidentifiedImageError => "cannot identify image file"
  | DetectorError => "'NoneType' object has no attribute 'shape'"
  | CvError => "(-215:Assertion failed) !_img.empty() in function 'imwrite'"
  end.

Definition IMAGE_DIR : string := "images".
Definition COMMENTS_FILE : string := "image_comments.json".
Definition INDEX_PATH : string := "faiss_index.index".
Definition METADATA_PATH : string := "metadata.json".

(** [os.path.join(IMAGE_DIR, filename)] *)
Definition image_path (fname : string) : string := IMAGE_DIR ++ "/" ++ fname.

(** A float as an argument of [<=]: [max_distance] is any Python float. *)
Inductive pyfloat : Type :=
| Finite (q : Q)
| PosInf
| NegInf
| NaN.

(** [std::numeric_limits<float>::max()], the distance FAISS leaves in a
    result slot it could not fill. *)
Definition FLT_MAX : Q := inject_Z ((2 ^ 24 - 1) * 2 ^ 104).

(** *** The comparison of line 290

    [d] is a numpy float32 scalar and [max_distance] a Python float; numpy
    (2.0 and later) converts the Python float to float32 and compares there.
    So the bound is first rounded to the nearest float32, ties to even, and
    to an infinity beyond the float32 range. *)

(** [a / d >= 2 ^ e], for positive [a] and [d]. *)
Definition ge_pow2 (a d e : Z) : bool :=
  if (0 <=? e)%Z then (d * 2 ^ e <=? a)%Z else (d <=? a * 2 ^ (- e))%Z.

(** The [e] with [2 ^ e <= a / d < 2 ^ (e + 1)]. *)
Definition floor_log2 (a d : Z) : Z :=
  let e0 := (Z.log2 a - Z.log2 d)%Z in
  if ge_pow2 a d e0 then e0 else (e0 - 1)%Z.

(** [n / d] to the nearest integer, a tie to the even one. *)
Definition round_half_even (n d : Z) : Z :=
  let q := (n / d)%Z in
  match (2 * (n mod d) ?= d)%Z with
  | Lt => q
  | Gt => (q + 1)%Z
  | Eq => if Z.even q then q else (q + 1)%Z
  end.

(** [np.float32(x)] for a finite Python float [x]: 24 significant bits,
    the least exponent of a unit in the last place -149, the greatest 104. *)
Definition float32_of (x : Q) : pyfloat :=
  let a := Z.abs (Qnum x) in
  let d := Zpos (Qden x) in
  if (a =? 0)%Z then Finite 0
  else
    let ulp := Z.max (floor_log2 a d - 23) (-149) in
    let m :=
      if (0 <=? ulp)%Z then round_half_even a (d * 2 ^ ulp)
      else round_half_even (a * 2 ^ (- ulp)) d in
    let negative := (Qnum x <? 0)%Z in
    if (0 <=? ulp)%Z then
      if (2 ^ 128 <=? m * 2 ^ ulp)%Z then
        if negative then NegInf else PosInf
      else Finite (inject_Z ((if negative then - m else m) * 2 ^ ulp))
    else
      Finite (Qmake (if negative then - m else m) (Z.to_pos (2 ^ (- ulp)))).

(** [d <= max_distance] for a finite float32 [d]. *)
Definition float_le (d : Q) (m : pyfloat) : bool :=
  match m with
  | Finite q =>
      match float32_of q with
      | Finite q32 => Qle_bool d q32
      | PosInf => true
      | NegInf => false
      | NaN => false
      end
  | PosInf => true
  | NegInf => false
  | NaN => false
  end.

(** [l[i]] with Python's negative indices; [None] is [IndexError]. *)
Definition py_getitem {A} (l : list A) (i : Z) : option A :=
  let n := Z.of_nat (length l) in
  if (i <? 0)%Z then
    if (0 <=? n + i)%Z then nth_error l (Z.to_nat (n + i)) else None
  else nth_error l (Z.to_nat i).


(** ** The embedding provider

    The CLIP checkpoint, its processor, and the numpy operations applied to
    the float32 arrays it returns.  [clip_forward image text] is the model
    applied to the processor's encoding of the one text and the image, read
    at [image_embeds[0]] and [text_embeds[0]]; it is [None] when PIL cannot
    decode the bytes.  [l2sqr] is the squared Euclidean distance computed by
    the flat index, a finite float32 read as a rational. *)

Class Provider : Type := {
  Vec : Type;
  Scalar : Type;
  clip_forward : bytes -> string -> option (Vec * Vec);
  get_image_features : bytes -> option Vec;
  norm : Vec -> Scalar;
  vdiv : Vec -> Scalar -> Vec;
  vadd : Vec -> Vec -> Vec;
  vhalf : Vec -> Vec;
  astype_float32 : Vec -> Vec;
  l2sqr : Vec -> Vec -> Q
}.

Inductive Response : Type :=
| Message (text : string)
| Error (text : string).

Inductive outcome (A : Type) : Type :=
| Raised (e : exn)
| Returned (a : A).
Arguments Raised {A} e.
Arguments Returned {A} a.

Section Service.

Context `{Provider}.

(** The process and its working directory: the two globals and the files
    and directory the handlers read and write. *)
Record World : Type := mkWorld {
  image_dir : gmap string bytes;
  comments_file : File (PyDict.t CatalogValue);
  index_file : File (list Vec);
  metadata_file : File (list Item);
  index : list Vec;
  metadata : list Item
}.

(** *** Handlers as state transformers that may raise *)

Definition M (A : Type) : Type := World -> World * outcome A.

Definition ret {A} (a : A) : M A := fun w => (w, Returned a).

Definition raise {A} (e : exn) : M A := fun w => (w, Raised e).

Definition bind {A B} (m : M A) (k : A -> M B) : M B :=
  fun w =>
    match m w with
    | (w', Raised e) => (w', Raised e)
    | (w', Returned a) => k a w'
    end.

(** [try: m except Exception as e: h e] *)
Definition catch {A} (m : M A) (h : exn -> M A) : M A :=
  fun w =>
    match m w with
    | (w', Raised e) => h e w'
    | r => r
    end.

Definition gets {A} (f : World -> A) : M A := fun w => (w, Returned (f w)).

Definition modify (f : World -> World) : M unit := fun w => (f w, Returned tt).

Notation "x <- c ;; k" := (bind c (fun x => k))
  (at level 100, c at next level, right associativity).
Notation "c ;;; k" := (bind c (fun _ => k))
  (at level 100, right associativity).

Fixpoint mapM {A B} (f : A -> M B) (l : list A) : M (list B) :=
  match l with
  | [] => ret []
  | a :: r => b <- f a ;; bs <- mapM f r ;; ret (b :: bs)
  end.

Definition set_image_dir (d : gmap string bytes) (w : World) : World :=
  mkWorld d (comments_file w) (index_file w) (metadata_file w)
          (index w) (metadata w).

Definition set_comments_file (c : File (PyDict.t CatalogValue)) (w : World)
  : World :=
  mkWorld (image_dir w) c (index_file w) (metadata_file w)
          (index w) (metadata w).

Definition set_index_file (f : File (list Vec)) (w : World) : World :=
  mkWorld (image_dir w) (comments_file w) f (metadata_file w)
          (index w) (metadata w).

Definition set_metadata_file (f : File (list Item)) (w : World) : World :=
  mkWorld (image_dir w) (comments_file w) (index_file w) f
          (index w) (metadata w).

Definition set_index (i : list Vec) (w : World) : World :=
  mkWorld (image_dir w) (comments_file w) (index_file w) (metadata_file w)
          i (metadata w).

Definition set_metadata (m : list Item) (w : World) : World :=
  mkWorld (image_dir w) (comments_file w) (index_file w) (metadata_file w)
          (index w) m.

(** [os.path.exists] *)
Definition exists_file {A} (f : File A) : bool :=
  match f with Missing => false | _ => true end.

(** [with open(path) as f: json.load(f)] *)
Definition load {A} (path : string) (decode_error : string -> exn)
  (f : File A) : M A :=
  match f with
  | Missing => raise (FileNotFoundError path)
  | Corrupt => raise (decode_error path)
  | Content a => ret a
  end.

(** [faiss.write_index(index, INDEX_PATH)] *)
Definition write_index : M unit :=
  modify (fun w => set_index_file (Content (index w)) w).

(** [json.dump(md, open("metadata.json", "w"))] *)
Definition write_metadata (md : list Item) : M unit :=
  modify (set_metadata_file (Content md)).

(** [index.add(vectors)] *)
Definition index_add (vs : list Vec) : M unit :=
  modify (fun w => set_index (index w ++ vs) w).

(** The fused vector of lines 145-146 and 269-270. *)
Definition combined_emb (image_emb text_emb : Vec) : Vec :=
  vhalf (vadd (vdiv image_emb (norm image_emb))
              (vdiv text_emb (norm text_emb))).

Definition process_image_text_pair (fname : string) (text : string) : M Vec :=
  d <- gets image_dir ;;
  match d !! fname with
  | None => raise (FileNotFoundError (image_path fname))
  | Some image =>
      match clip_forward image text with
      | None => raise UnidentifiedImageError
      | Some (image_emb, text_emb) =>
          ret (astype_float32 (combined_emb image_emb text_emb))
      end
  end.

(** [[t.strip() for t in tags.split(",") if t.strip()]] *)
Definition parse_tags (tags_field : string) : list string :=
  List.map PyStr.strip
    (List.filter (fun t => negb (PyStr.is_empty (PyStr.strip t)))
       (PyStr.split "," tags_field)).

(** [f"{comment} {' '.join(tags)}"] *)
Definition combined_text (cmt : string) (tag_list : list string) : string :=
  cmt ++ " " ++ PyStr.join " " tag_list.

(** *** Start-up, lines 117-122 *)

Definition startup : M unit :=
  modify (set_index []) ;;;
  modify (set_metadata []) ;;;
  f <- gets index_file ;;
  if exists_file f then
    i <- load INDEX_PATH ReadIndexError f ;;
    modify (set_index i) ;;;
    mf <- gets metadata_file ;;
    md <- load METADATA_PATH JSONDecodeError mf ;;
    modify (set_metadata md)
  else ret tt.

(** *** POST /add-item *)

Definition add_item (fname : string) (image : bytes) (cmt : string)
  (tags_field : string) : M Response :=
  modify (fun w => set_image_dir (<[fname := image]> (image_dir w)) w) ;;;
  let tag_list := parse_tags tags_field in
  cf <- gets comments_file ;;
  comments_data <-
    (if exists_file cf then load COMMENTS_FILE JSONDecodeError cf
     else ret []) ;;
  let comments_data :=
    PyDict.set fname (Entry (Some cmt) (Some tag_list)) comments_data in
  modify (set_comments_file (Content comments_data)) ;;;
  emb <- process_image_text_pair fname (combined_text cmt tag_list) ;;
  index_add [emb] ;;;
  modify (fun w => set_metadata (metadata w ++ [mkItem fname cmt tag_list]) w) ;;;
  write_index ;;;
  md <- gets metadata ;;
  write_metadata md ;;;
  ret (Message "Item added successfully").

(** *** POST /rebuild-index *)

(** The world once both globals are reset, lines 202-203. *)
Definition reset_globals (w : World) : World :=
  mkWorld (image_dir w) (comments_file w) (index_file w) (metadata_file w)
          [] [].

Definition rebuilt_message : Response := Message "Index rebuilt successfully".

Definition entry_fields (data : CatalogValue) : string * list string :=
  match data with
  | Legacy text => (text, [])
  | Entry c t => (default "" c, default [] t)
  end.

(** The loop of lines 212-232 over [comments_data.items()]. *)
Fixpoint rebuild_loop (entries : list (string * CatalogValue))
  (embeddings : list Vec) (new_metadata : list Item)
  : M (list Vec * list Item) :=
  match entries with
  | [] => ret (embeddings, new_metadata)
  | (fname, data) :: rest =>
      let '(cmt, tgs) := entry_fields data in
      d <- gets image_dir ;;
      match d !! fname with
      | None => rebuild_loop rest embeddings new_metadata
      | Some _ =>
          emb <- process_image_text_pair fname (combined_text cmt tgs) ;;
          rebuild_loop rest (embeddings ++ [emb])
            (new_metadata ++ [mkItem fname cmt tgs])
      end
  end.

Definition rebuild_index : M Response :=
  modify reset_globals ;;;
  cf <- gets comments_file ;;
  (if exists_file cf then
     comments_data <- load COMMENTS_FILE JSONDecodeError cf ;;
     r <- rebuild_loop comments_data [] [] ;;
     let '(embeddings, new_metadata) := r in
     (match embeddings with
      | [] => ret tt
      | _ :: _ =>
          index_add embeddings ;;;
          write_index ;;;
          write_metadata new_metadata
      end) ;;;
     modify (set_metadata new_metadata)
   else ret tt) ;;;
  ret rebuilt_message.

(** *** The flat index: [IndexFlatL2.search] for one query *)

Definition Hit : Type := (Q * Z)%type.

Fixpoint enumerate_from {A} (i : Z) (l : list A) : list (Z * A) :=
  match l with
  | [] => []
  | a :: r => (i, a) :: enumerate_from (i + 1)%Z r
  end.

Definition score (query : Vec) (xs : list Vec) : list Hit :=
  List.map (fun p => (l2sqr query (snd p), fst p)) (enumerate_from 0 xs).

(** Nearest first; of two vectors at the same distance, the one added
    earlier first. *)
Fixpoint insert_hit (h : Hit) (l : list Hit) : list Hit :=
  match l with
  | [] => [h]
  | h' :: r =>
      if Qle_bool (fst h) (fst h') then h :: l else h' :: insert_hit h r
  end.

Fixpoint sort_hits (l : list Hit) : list Hit :=
  match l with
  | [] => []
  | h :: r => insert_hit h (sort_hits r)
  end.

(** A result slot for which no vector is left. *)
Definition no_hit : Hit := (FLT_MAX, (-1)%Z).

(** [distances[0]] zipped with [indices[0]]: always [k] slots. *)
Definition index_search (xs : list Vec) (query : Vec) (k : nat) : list Hit :=
  let found := firstn k (sort_hits (score query xs)) in
  found ++ repeat no_hit (k - length found).

(** *** POST /search *)

(** Lines 255-281: the fused vector for a non-empty comment, the normalized
    image features otherwise. *)
Definition query_embedding (image : bytes) (cmt : string) : M Vec :=
  if negb (PyStr.is_empty cmt) then
    match clip_forward image cmt with
    | None => raise UnidentifiedImageError
    | Some (image_emb, text_emb) => ret (combined_emb image_emb text_emb)
    end
  else
    match get_image_features image with
    | None => raise UnidentifiedImageError
    | Some image_emb => ret (vdiv image_emb (norm image_emb))
    end.

(** The comprehension of lines 287-291. *)
Fixpoint collect_results (md : list Item) (max_distance : pyfloat)
  (hits : list Hit) : M (list Item) :=
  match hits with
  | [] => ret []
  | (d, idx) :: rest =>
      if float_le d max_distance && (idx <? Z.of_nat (length md))%Z then
        match py_getitem md idx with
        | None => raise IndexError
        | Some item =>
            items <- collect_results md max_distance rest ;;
            ret (item :: items)
        end
      else collect_results md max_distance rest
  end.

(** [query_emb.astype('float32')], line 283. *)
Definition query_vector (image : bytes) (cmt : string) : M Vec :=
  query_emb <- query_embedding image cmt ;;
  ret (astype_float32 query_emb).

Definition search_image (image : bytes) (cmt : string) (k : nat)
  (max_distance : pyfloat) : M (list Item) :=
  query_emb <- query_vector image cmt ;;
  xs <- gets index ;;
  let hits := index_search xs query_emb k in
  md <- gets metadata ;;
  collect_results md max_distance hits.

(** *** DELETE /items/{filename} *)

Definition keep_other (fname : string) (item : Item) : bool :=
  negb (String.eqb (filename item) fname).

(** The embedding of a stored item, as lines 351-354 recompute it. *)
Definition embed_item (item : Item) : M Vec :=
  process_image_text_pair (filename item)
    (combined_text (comment item) (tags item)).

Definition deleted_message : Response := Message "Item deleted successfully".

Definition delete_item_body (fname : string) : M Response :=
  modify (fun w => set_image_dir (delete fname (image_dir w)) w) ;;;
  cf <- gets comments_file ;;
  comments_data <- load COMMENTS_FILE JSONDecodeError cf ;;
  (if PyDict.mem fname comments_data then ret tt
   else raise (KeyError fname)) ;;;
  modify (set_comments_file (Content (PyDict.remove fname comments_data))) ;;;
  modify (fun w =>
            set_metadata (List.filter (keep_other fname) (metadata w)) w) ;;;
  md <- gets metadata ;;
  write_metadata md ;;;
  modify (set_index []) ;;;
  (match md with
   | [] => ret tt
   | _ :: _ =>
       embeddings <- mapM embed_item md ;;
       index_add embeddings ;;;
       write_index
   end) ;;;
  ret deleted_message.

Definition delete_item (fname : string) : M Response :=
  catch (delete_item_body fname) (fun e => ret (Error (exn_str e))).

(** *** The embedding contract in the words of the specification

    With a text: the image and the text embedding, each L2-normalized, then
    averaged element-wise.  Without: the L2-normalized image embedding. *)

Definition l2_normalize (v : Vec) : Vec := vdiv v (norm v).

Definition average (a b : Vec) : Vec := vhalf (vadd a b).

Definition spec_embed (image : bytes) (text : option string) : outcome Vec :=
  match text with
  | Some t =>
      match clip_forward image t with
      | None => Raised UnidentifiedImageError
      | Some (image_emb, text_emb) =>
          Returned (astype_float32
                      (average (l2_normalize image_emb)
                               (l2_normalize text_emb)))
      end
  | None =>
      match get_image_features image with
      | None => Raised UnidentifiedImageError
      | Some image_emb => Returned (astype_float32 (l2_normalize image_emb))
      end
  end.

End Service.

Arguments World {_}.
Arguments M {_} A.

(** ** POST /analyze-outfit *)

(** What [segment_clothing] returns for one detection. *)
Module Det.
Record t : Type := mk {
  category : string;
  confidence : Q;
  bbox : Q * Q * Q * Q
}.
End Det.

(** An element of the list [analyze_outfit] returns. *)
Module Seg.
Record t : Type := mk {
  category : string;
  confidence : Q;
  segment_path : string
}.
End Seg.

Definition excluded_categories : list string :=
  [ "headband, head covering, hair accessory"; "hood"; "collar"; "lapel";
    "epaulette"; "sleeve"; "pocket"; "neckline"; "buckle"; "zipper";
    "applique"; "bead"; "bow"; "flower"; "fringe"; "ribbon"; "rivet";
    "ruffle"; "sequin"; "tassel" ].

Definition is_excluded (c : string) : bool :=
  existsb (String.eqb c) excluded_categories.

(** [int(x)]: towards zero. *)
Definition py_int (x : Q) : Z := Z.quot (Qnum x) (Zpos (Qden x)).

Definition Crop : Type := (Z * Z * Z * Z)%type.

(** The loop state: [category_tracker], the number of [uuid4] calls made,
    and the segment files written so far. *)
Record Tracker : Type := mkTracker {
  category_tracker : PyDict.t Seg.t;
  uuid_calls : nat;
  segments_written : list (string * Crop)
}.

(** The shape of [base_image]: rows, columns. *)
Definition Shape : Type := (Z * Z)%type.

(** [slice(start, stop).indices(n)]: a negative index counts from the end,
    and both ends are clamped to [0, n]. *)
Definition slice_bound (n i : Z) : Z :=
  if (i <? 0)%Z then Z.max 0 (i + n) else Z.min i n.

(** [len(a[start:stop])] for [len(a) = n]. *)
Definition slice_len (n start stop : Z) : Z :=
  Z.max 0 (slice_bound n stop - slice_bound n start).

(** The crop [analyze_outfit] cuts for a detection: its box with each
    coordinate through [int]. *)
Definition crop_of (comp : Det.t) : Crop :=
  let '(x1, y1, x2, y2) := Det.bbox comp in
  (py_int x1, py_int y1, py_int x2, py_int y2).

(** [base_image[y1:y2, x1:x2]] has no pixel. *)
Definition crop_empty (shape : Shape) (crop : Crop) : bool :=
  let '(x1, y1, x2, y2) := crop in
  ((slice_len (fst shape) y1 y2 =? 0) || (slice_len (snd shape) x1 x2 =? 0))%Z.

(** The path of the segment file named by the [n]-th [uuid4] call. *)
Definition seg_path (uuid4 : nat -> string) (n : nat) : string :=
  "segments/" ++ uuid4 n ++ ".jpg".

Section Outfit.

Variable uuid4 : nat -> string.

(** [segment_clothing(temp_path)]: the detections and the image read. *)
Variable segment_clothing : bytes -> outcome (list Det.t * Shape).

Definition passes_filter (comp : Det.t) : bool :=
  Qle_bool (3 # 4) (Det.confidence comp)
  && negb (is_excluded (Det.category comp)).

(** [current_category not in category_tracker or
     current_conf > category_tracker[current_category]['confidence']] *)
Definition improves (tracker : PyDict.t Seg.t) (comp : Det.t) : bool :=
  match PyDict.get (Det.category comp) tracker with
  | None => true
  | Some kept => negb (Qle_bool (Det.confidence comp) (Seg.confidence kept))
  end.

(** Lines 86-94 once [cv2.imwrite] has written the crop. *)
Definition enter (st : Tracker) (comp : Det.t) : Tracker :=
  let path := seg_path uuid4 (uuid_calls st) in
  mkTracker
    (PyDict.set (Det.category comp)
       (Seg.mk (Det.category comp) (Det.confidence comp) path)
       (category_tracker st))
    (S (uuid_calls st))
    (segments_written st ++ [(path, crop_of comp)]).

(** One iteration of the loop of lines 73-94.  [cv2.imwrite] raises on an
    image without pixels. *)
Definition track (shape : Shape) (st : Tracker) (comp : Det.t)
  : outcome Tracker :=
  if passes_filter comp && improves (category_tracker st) comp then
    if crop_empty shape (crop_of comp) then Raised CvError
    else Returned (enter st comp)
  else Returned st.

Fixpoint track_all (shape : Shape) (components : list Det.t) (st : Tracker)
  : outcome Tracker :=
  match components with
  | [] => Returned st
  | comp :: rest =>
      match track shape st comp with
      | Raised e => Raised e
      | Returned st' => track_all shape rest st'
      end
  end.

(** The loop, entered after the one [uuid4] call that names the temporary
    file. *)
Definition run_tracker (shape : Shape) (components : list Det.t)
  : outcome Tracker :=
  track_all shape components (mkTracker [] 1 []).

Definition analyze_outfit (image : bytes) : outcome (list Seg.t) :=
  match segment_clothing image with
  | Raised e => Raised e
  | Returned (components, shape) =>
      match run_tracker shape components with
      | Raised e => Raised e
      | Returned st => Returned (PyDict.values (category_tracker st))
      end
  end.

End Outfit.

(** What the tracker knows after the detections [seen]: every entry sits
    under its own category, passed the filter, is one of the detections
    seen, and no detection seen in its category has a higher confidence;
    and every detection that passed the filter has its category tracked. *)
Record tracker_ok (seen : list Det.t) (t : PyDict.t Seg.t) : Prop := {
  ok_nodup : List.NoDup (PyDict.keys t);
  ok_entry : forall k g, PyDict.get k t = Some g ->
    Seg.category g = k
    /\ (3 # 4 <= Seg.confidence g)%Q
    /\ is_excluded k = false
    /\ (exists d, List.In d seen /\ Det.category d = k
                  /\ Det.confidence d = Seg.confidence g)
    /\ (forall d, List.In d seen -> Det.category d = k ->
                  (Det.confidence d <= Seg.confidence g)%Q);
  ok_tracked : forall d, List.In d seen -> passes_filter d = true ->
    PyDict.get (Det.category d) t <> None
}.

(** ** Ranking, in the words of the specification

    Each item of the metadata sequence next to the distance from the query
    to the vector stored at the item's position. *)

Definition hit_le (a b : Hit) : Prop := (fst a <= fst b)%Q.

Definition with_distances `{Provider} (query : Vec) (xs : list Vec)
  (md : list Item) : list (Q * Item) :=
  List.combine (List.map (l2sqr query) xs) md.

Definition nearer (a b : Q * Item) : Prop := (fst a <= fst b)%Q.

Definition no_item : Item := mkItem "" "" [].

(** The item a hit stands for, and the hit's distance. *)
Definition ranked_item (md : list Item) (h : Hit) : Q * Item :=
  (fst h, nth (Z.to_nat (snd h)) md no_item).

(** ** A small provider to run the handlers on

    One-dimensional stand-ins: an image embeds to its length, a text to its
    length, an empty upload is rejected as undecodable. *)

Definition toy_provider : Provider := {|
  Vec := Z;
  Scalar := Z;
  clip_forward := fun image text =>
    match image with
    | [] => None
    | _ => Some (Z.of_nat (length image), Z.of_nat (String.length text))
    end;
  get_image_features := fun image =>
    match image with
    | [] => None
    | _ => Some (Z.of_nat (length image))
    end;
  norm := fun _ => 1%Z;
  vdiv := fun v s => Z.div v s;
  vadd := Z.add;
  vhalf := fun v => Z.div v 2;
  astype_float32 := fun v => v;
  l2sqr := fun a b => inject_Z ((a - b) * (a - b))
|}.

Definition empty_world `{Provider} : World :=
  mkWorld ∅ Missing Missing Missing [] [].

(** The state a handler leaves behind, and what it returned or raised. *)
Definition after `{Provider} {A} (m : M A) (w : World) : World := fst (m w).
Definition result `{Provider} {A} (m : M A) (w : World) : outcome A :=
  snd (m w).

(** ** Worlds to run the handlers on *)

Definition toy_image : bytes := [Byte.x01; Byte.x02].

(** One item, added to a fresh installation. *)
Definition one_item_world : @World toy_provider :=
  after (add_item "a.jpg" toy_image "blue" "casual,summer") empty_world.

(** The same upload sent a second time with another comment. *)
Definition readded_world : @World toy_provider :=
  after (add_item "a.jpg" toy_image "red" "") one_item_world.

(** The only item deleted again, then the server restarted. *)
Definition restarted_world : @World toy_provider :=
  after startup (after (delete_item "a.jpg") one_item_world).

(** Two items in the catalog. *)
Definition two_item_world : @World toy_provider :=
  after (add_item "b.jpg" [Byte.x03] "green wool coat" "winter")
    one_item_world.

(** A catalog entry whose image file is gone. *)
Definition orphan_world : @World toy_provider :=
  set_image_dir ∅ one_item_world.

(** Detections to run AnalyzeOutfit on, and a detector that returns them. *)
Definition toy_detections : list Det.t :=
  [ Det.mk "shirt, blouse" (9 # 10) (10, 20, 110, 220)%Q;
    Det.mk "collar" (95 # 100) (40, 20, 80, 40)%Q;
    Det.mk "pants" (6 # 10) (10, 220, 110, 400)%Q;
    Det.mk "shirt, blouse" (97 # 100) (12, 18, 108, 221)%Q;
    Det.mk "shirt, blouse" (8 # 10) (0, 0, 50, 50)%Q ].

Definition toy_uuid4 (n : nat) : string :=
  String (ascii_of_nat (48 + n)) EmptyString.

Definition toy_segment_clothing (image : bytes)
  : outcome (list Det.t * Shape) :=
  match image with
  | [] => Raised DetectorError
  | _ => Returned (toy_detections, (400, 300)%Z)
  end.

(** A detection whose box starts left of the image: [int(-3.5)] is [-3],
    and columns [-3:50] of a 300-column image are none. *)
Definition edge_detections : list Det.t :=
  [ Det.mk "dress" (9 # 10) (- (7 # 2), 20, 50, 60)%Q ].

Definition edge_segment_clothing (image : bytes)
  : outcome (list Det.t * Shape) :=
  Returned (edge_detections, (400, 300)%Z).

(** ** GET /items *)

(** An element of the list [get_all_items] returns. *)
Module Listed.
Record t : Type := mk {
  filename : string;
  image_url : string;
  comment : string;
  tags : list string
}.
End Listed.

Section Listing.

Context `{Provider}.

Notation "x <- c ;; k" := (bind c (fun x => k))
  (at level 100, c at next level, right associativity).

(** The loop of lines 305-323 over [comments_data.items()]. *)
Fixpoint items_loop (entries : list (string * CatalogValue))
  (items : list Listed.t) : M (list Listed.t) :=
  match entries with
  | [] => ret items
  | (fname, data) :: rest =>
      d <- gets image_dir ;;
      match d !! fname with
      | None => items_loop rest items
      | Some _ =>
          let '(cmt, tgs) := entry_fields data in
          items_loop rest
            (items ++ [Listed.mk fname ("/images/" ++ fname) cmt tgs])
      end
  end.

Definition get_all_items : M (list Listed.t) :=
  cf <- gets comments_file ;;
  if negb (exists_file cf) then ret []
  else
    comments_data <- load COMMENTS_FILE JSONDecodeError cf ;;
    items_loop comments_data [].

(** A listed item without its URL. *)
Definition listed_item (l : Listed.t) : Item :=
  mkItem (Listed.filename l) (Listed.comment l) (Listed.tags l).

(** The row [get_all_items] makes of a catalog entry. *)
Definition listed_row (e : string * CatalogValue) : Listed.t :=
  Listed.mk (fst e) ("/images/" ++ fst e)
    (fst (entry_fields (snd e))) (snd (entry_fields (snd e))).

(** [os.path.exists(image_path)] for the entry's filename. *)
Definition has_image (d : gmap string bytes) (e : string * CatalogValue)
  : bool :=
  bool_decide (is_Some (d !! fst e)).

(** The catalog entries whose image file exists, as [rebuild_index] and
    [get_all_items] both walk them. *)
Definition live_entries (d : gmap string bytes)
  (comments_data : PyDict.t CatalogValue) : list Item :=
  List.map (fun e => listed_item (listed_row e))
    (List.filter (has_image d) comments_data).

(** [v] is what [process_image_text_pair] computes for [item] on the image
    and text the world holds for it now. *)
Definition embeds (w : World) (item : Item) (v : Vec) : Prop :=
  result (embed_item item) w = Returned v.

(** The index holds, position by position, the embedding of the metadata
    item at that position. *)
Definition aligned (w : World) : Prop :=
  Forall2 (embeds w) (metadata w) (index w).

(** Both globals are what the two files hold. *)
Definition persisted (w : World) : Prop :=
  index_file w = Content (index w) /\ metadata_file w = Content (metadata w).

End Listing.

(** [d <= max_distance] for a ranked item. *)
Definition within (max_distance : pyfloat) (p : Q * Item) : bool :=
  float_le (fst p) max_distance.

(** A string that [str.strip] leaves as it is. *)
Definition stripped (s : string) : Prop := PyStr.strip s = s.

Fixpoint contains (c : ascii) (s : string) : bool :=
  match s with
  | EmptyString => false
  | String c' r => Ascii.eqb c' c || contains c r
  end.

(** The string starts with a character [p1], [p2] or [p3] recognises. *)
Definition starts_strippable (p1 : ascii -> bool)
  (p2 : ascii -> ascii -> bool) (p3 : ascii -> ascii -> ascii -> bool)
  (s : string) : bool :=
  match s with
  | EmptyString => false
  | String c1 r1 =>
      p1 c1
      || match r1 with
         | EmptyString => false
         | String c2 r2 =>
             p2 c1 c2
             || match r2 with
                | EmptyString => false
                | String c3 _ => p3 c1 c2 c3
                end
         end
  end.

(** The first character of the string is white space. *)
Definition starts_with_space (s : string) : bool :=
  starts_strippable PyStr.is_space PyStr.is_space2 PyStr.is_space3 s.

(** The last character of the string is white space. *)
Definition ends_with_space (s : string) : bool :=
  starts_strippable PyStr.is_space
    (fun c2 c1 => PyStr.is_space2 c1 c2)
    (fun c3 c2 c1 => PyStr.is_space3 c1 c2 c3) (PyStr.reverse s).

(** U+00A0, the no-break space. *)
Definition NBSP : string :=
  String (ascii_of_nat 194) (String (ascii_of_nat 160) EmptyString).

(** A tag as [parse_tags] makes them: not empty, nothing to strip, no
    comma. *)
Definition clean_tag (t : string) : Prop :=
  t <> "" /\ stripped t /\ contains "," t = false.

(** What the loop keeps true of the files it has written after the
    detections [seen]. *)
Record segments_ok (uuid4 : nat -> string) (shape : Shape)
  (seen : list Det.t) (st : Tracker) : Prop := {
  seg_entry : forall k g, PyDict.get k (category_tracker st) = Some g ->
    exists d, List.In d seen
              /\ Det.category d = Seg.category g
              /\ Det.confidence d = Seg.confidence g
              /\ List.In (Seg.segment_path g, crop_of d)
                   (segments_written st);
  seg_calls : (1 <= uuid_calls st)%nat;
  seg_names : List.map fst (segments_written st)
              = List.map (seg_path uuid4) (seq 1 (uuid_calls st - 1));
  seg_pixels : forall p c, List.In (p, c) (segments_written st) ->
    crop_empty shape c = false
}.

(** ** More worlds to run the handlers on *)

(** A catalog written by an older version, with one image gone. *)
Definition legacy_world : @World toy_provider :=
  mkWorld {[ "old.jpg" := [Byte.x05] ]}
    (Content [("old.jpg", Legacy "vintage scarf");
              ("gone.jpg", Entry (Some "lost") None)])
    Missing Missing [] [].

(** An upload of zero bytes after the first item: AddItem raised, with the
    file and the catalog entry written. *)
Definition undecodable_world : @World toy_provider :=
  after (add_item "bad.jpg" [] "broken" "") one_item_world.

(** Two items, the image of the second removed behind the server's back. *)
Definition missing_image_world : @World toy_provider :=
  set_image_dir (delete "b.jpg" (image_dir two_item_world)) two_item_world.

(** One item, the catalog file removed behind the server's back. *)
Definition no_catalog_world : @World toy_provider :=
  set_comments_file Missing one_item_world.

(** * Properties *)

(** ** Dicts *)

Module PyDictFacts.

Lemma get_set_same {V} (k : string) (v : V) (d : PyDict.t V) :
  PyDict.get k (PyDict.set k v d) = Some v.
Proof.
  induction d as [|[k' v'] r IH]; simpl.
  - now rewrite String.eqb_refl.
  - destruct (String.eqb k' k) eqn:E; simpl.
    + now rewrite String.eqb_refl.
    + now rewrite E.
Qed.

Lemma get_set_other {V} (k k' : string) (v : V) (d : PyDict.t V) :
  k <> k' -> PyDict.get k' (PyDict.set k v d) = PyDict.get k' d.
Proof.
  intros Hne. induction d as [|[k0 v0] r IH]; simpl.
  - destruct (String.eqb_spec k k'); congruence.
  - destruct (String.eqb_spec k0 k) as [->|Hk0]; simpl.
    + destruct (String.eqb_spec k k'); congruence.
    + destruct (String.eqb_spec k0 k'); congruence.
Qed.

Lemma mem_true_iff {V} (k : string) (d : PyDict.t V) :
  PyDict.mem k d = true <-> List.In k (PyDict.keys d).
Proof.
  unfold PyDict.mem, PyDict.keys.
  induction d as [|[k' v'] r IH]; simpl.
  - split; [discriminate | tauto].
  - destruct (String.eqb_spec k' k) as [->|Hne].
    + split; auto.
    + rewrite IH. split; [tauto | intros [?|?]; congruence].
Qed.

(** Assigning to a key that is present keeps the keys as they are. *)
Lemma keys_set_present {V} (k : string) (v : V) (d : PyDict.t V) :
  PyDict.mem k d = true -> PyDict.keys (PyDict.set k v d) = PyDict.keys d.
Proof.
  unfold PyDict.mem, PyDict.keys.
  induction d as [|[k' v'] r IH]; simpl.
  - discriminate.
  - destruct (String.eqb_spec k' k) as [->|Hne]; simpl.
    + reflexivity.
    + intros Hm. now rewrite IH.
Qed.

(** Assigning to a new key puts it last. *)
Lemma keys_set_absent {V} (k : string) (v : V) (d : PyDict.t V) :
  PyDict.mem k d = false ->
  PyDict.keys (PyDict.set k v d) = (PyDict.keys d ++ [k])%list.
Proof.
  unfold PyDict.mem, PyDict.keys.
  induction d as [|[k' v'] r IH]; simpl.
  - reflexivity.
  - destruct (String.eqb_spec k' k) as [->|Hne]; simpl.
    + discriminate.
    + intros Hm. now rewrite IH.
Qed.

Lemma keys_set_nodup {V} (k : string) (v : V) (d : PyDict.t V) :
  List.NoDup (PyDict.keys d) -> List.NoDup (PyDict.keys (PyDict.set k v d)).
Proof.
  intros Hnd. destruct (PyDict.mem k d) eqn:E.
  - now rewrite keys_set_present.
  - rewrite keys_set_absent by assumption.
    apply List.NoDup_app; [assumption | repeat constructor; inversion 1 |].
    intros x Hx [<-|[]]. apply mem_true_iff in Hx. congruence.
Qed.

Lemma get_some_in {V} (k : string) (v : V) (d : PyDict.t V) :
  PyDict.get k d = Some v -> List.In (k, v) d.
Proof.
  induction d as [|[k' v'] r IH]; simpl; [discriminate|].
  destruct (String.eqb_spec k' k) as [->|Hne].
  - intros [= ->]. now left.
  - intros Hg. right. now apply IH.
Qed.

Lemma in_get_some {V} (k : string) (v : V) (d : PyDict.t V) :
  List.NoDup (PyDict.keys d) -> List.In (k, v) d -> PyDict.get k d = Some v.
Proof.
  unfold PyDict.keys.
  induction d as [|[k' v'] r IH]; simpl; [tauto|].
  intros Hnd [Heq|Hin].
  - injection Heq as -> ->. now rewrite String.eqb_refl.
  - inversion Hnd as [|? ? Hnotin Hnd']; subst.
    destruct (String.eqb_spec k' k) as [->|Hne].
    + exfalso. apply Hnotin. apply (in_map fst) in Hin. exact Hin.
    + now apply IH.
Qed.

End PyDictFacts.

(** ** AddItem *)

Section AddItem.

Context `{Provider}.

(** What one call of [add_item] does, case by case. *)
Lemma add_item_run (w : World) (fname : string) (image : bytes)
  (cmt tags_field : string) :
  add_item fname image cmt tags_field w =
  let tag_list := parse_tags tags_field in
  let w1 := set_image_dir (<[fname := image]> (image_dir w)) w in
  let old :=
    match comments_file w with Content c => c | _ => [] end in
  let cat := PyDict.set fname (Entry (Some cmt) (Some tag_list)) old in
  match comments_file w with
  | Corrupt => (w1, Raised (JSONDecodeError COMMENTS_FILE))
  | _ =>
      match clip_forward image (combined_text cmt tag_list) with
      | None => (set_comments_file (Content cat) w1,
                 Raised UnidentifiedImageError)
      | Some (image_emb, text_emb) =>
          let emb := astype_float32 (combined_emb image_emb text_emb) in
          let idx := (index w ++ [emb])%list in
          let md := (metadata w ++ [mkItem fname cmt tag_list])%list in
          (mkWorld (<[fname := image]> (image_dir w)) (Content cat)
             (Content idx) (Content md) idx md,
           Returned (Message "Item added successfully"))
      end
  end.
Proof.
  unfold add_item, bind, gets, modify, process_image_text_pair. simpl.
  destruct (comments_file w) as [| |c] eqn:Ecf; simpl.
  - unfold bind, gets. simpl. rewrite lookup_insert_eq.
    destruct (clip_forward image _) as [[ie te]|]; reflexivity.
  - reflexivity.
  - unfold bind, gets. simpl. rewrite lookup_insert_eq.
    destruct (clip_forward image _) as [[ie te]|]; reflexivity.
Qed.

Lemma add_item_returned (w : World) (fname : string) (image : bytes)
  (cmt tags_field : string) (r : Response) :
  result (add_item fname image cmt tags_field) w = Returned r ->
  exists emb : Vec,
    index (after (add_item fname image cmt tags_field) w)
      = (index w ++ [emb])%list
    /\ metadata (after (add_item fname image cmt tags_field) w)
      = (metadata w ++ [mkItem fname cmt (parse_tags tags_field)])%list.
Proof.
  unfold result, after. rewrite add_item_run. cbv zeta.
  destruct (comments_file w); try discriminate;
    (destruct (clip_forward image _) as [[ie te]|]; simpl;
     [intros _; eexists; split; reflexivity | discriminate]).
Qed.

(** C1, amended: a successful AddItem appends exactly one vector to the
    index and exactly one item to the metadata sequence, so the two lengths
    are equal afterward whenever they were equal before the call. *)
Theorem add_item_appends_in_lockstep (w : World) (fname : string)
  (image : bytes) (cmt tags_field : string) (r : Response) :
  result (add_item fname image cmt tags_field) w = Returned r ->
  let w' := after (add_item fname image cmt tags_field) w in
  length (index w') = S (length (index w))
  /\ length (metadata w') = S (length (metadata w))
  /\ (length (index w) = length (metadata w) ->
      length (index w') = length (metadata w')).
Proof.
  intros Hok.
  destruct (add_item_returned w fname image cmt tags_field r Hok)
    as (emb & Hi & Hm).
  simpl. rewrite Hi, Hm, !length_app. simpl. lia.
Qed.

(** C2, amended: when the filename is already a key of the Catalog Store, a
    successful AddItem overwrites that one catalog entry in place (the keys
    of the store stay as they were) and appends one more entry for the
    filename to the metadata sequence, whatever the sequence already
    holds. *)
Theorem add_item_existing_filename (w : World) (fname : string)
  (image : bytes) (cmt tags_field : string) (r : Response)
  (cat : PyDict.t CatalogValue) :
  comments_file w = Content cat ->
  PyDict.mem fname cat = true ->
  result (add_item fname image cmt tags_field) w = Returned r ->
  let w' := after (add_item fname image cmt tags_field) w in
  exists cat',
    comments_file w' = Content cat'
    /\ PyDict.keys cat' = PyDict.keys cat
    /\ PyDict.get fname cat'
       = Some (Entry (Some cmt) (Some (parse_tags tags_field)))
    /\ (forall other, other <> fname ->
        PyDict.get other cat' = PyDict.get other cat)
    /\ metadata w'
       = (metadata w ++ [mkItem fname cmt (parse_tags tags_field)])%list.
Proof.
  intros Hcf Hmem. unfold result, after. rewrite add_item_run. cbv zeta.
  rewrite Hcf. destruct (clip_forward image _) as [[ie te]|]; simpl;
    [intros _ | discriminate].
  eexists. split; [reflexivity|].
  split; [now apply PyDictFacts.keys_set_present|].
  split; [apply PyDictFacts.get_set_same|].
  split; [|reflexivity].
  intros other Hne. apply PyDictFacts.get_set_other. congruence.
Qed.

End AddItem.

(** ** Reading handlers leave the world as it is *)

Section Readers.

Context `{Provider}.

Lemma process_image_text_pair_run (fname text : string) (w : World) :
  process_image_text_pair fname text w =
  (w, match image_dir w !! fname with
      | None => Raised (FileNotFoundError (image_path fname))
      | Some image =>
          match clip_forward image text with
          | None => Raised UnidentifiedImageError
          | Some (image_emb, text_emb) =>
              Returned (astype_float32 (combined_emb image_emb text_emb))
          end
      end).
Proof.
  unfold process_image_text_pair, bind, gets. simpl.
  destruct (image_dir w !! fname) as [image|]; [|reflexivity].
  destruct (clip_forward image text) as [[ie te]|]; reflexivity.
Qed.

Lemma process_image_text_pair_state (fname text : string) (w : World) :
  after (process_image_text_pair fname text) w = w.
Proof. unfold after. now rewrite process_image_text_pair_run. Qed.

(** The embedding of a stored image is decided by the image directory. *)
Lemma process_image_text_pair_frame (fname text : string) (w1 w2 : World) :
  image_dir w1 = image_dir w2 ->
  result (process_image_text_pair fname text) w1
  = result (process_image_text_pair fname text) w2.
Proof.
  intros E. unfold result. rewrite !process_image_text_pair_run. simpl.
  now rewrite E.
Qed.

Lemma mapM_embed_state (md : list Item) (w : World) :
  after (mapM embed_item md) w = w.
Proof.
  unfold after. induction md as [|item md IH]; simpl; [reflexivity|].
  unfold bind, embed_item at 1. rewrite process_image_text_pair_run.
  destruct (match image_dir w !! filename item with
            | Some _ => _ | None => _ end); [reflexivity|].
  destruct (mapM embed_item md w) as [w' [e|bs]]; simpl in *; assumption.
Qed.

Lemma mapM_embed_length (md : list Item) (w : World) (vs : list Vec) :
  result (mapM embed_item md) w = Returned vs -> length vs = length md.
Proof.
  unfold result. revert vs.
  induction md as [|item md IH]; simpl; intros vs.
  - intros [= <-]. reflexivity.
  - unfold bind, embed_item at 1. rewrite process_image_text_pair_run.
    destruct (match image_dir w !! filename item with
              | Some _ => _ | None => _ end); [discriminate|].
    destruct (mapM embed_item md w) as [w' [e|bs]]; simpl in *;
      [discriminate|].
    intros [= <-]. simpl. f_equal. now apply IH.
Qed.

Lemma rebuild_loop_state (entries : list (string * CatalogValue))
  (embeddings : list Vec) (new_metadata : list Item) (w : World) :
  after (rebuild_loop entries embeddings new_metadata) w = w.
Proof.
  unfold after. revert embeddings new_metadata.
  induction entries as [|[fname data] rest IH]; intros embs md; simpl;
    [reflexivity|].
  destruct (entry_fields data) as [cmt tgs]. unfold bind, gets. simpl.
  destruct (image_dir w !! fname) as [image|] eqn:E; [|apply IH].
  rewrite process_image_text_pair_run, E.
  destruct (clip_forward image _) as [[ie te]|]; [apply IH | reflexivity].
Qed.

Lemma rebuild_loop_frame (entries : list (string * CatalogValue))
  (embeddings : list Vec) (new_metadata : list Item) (w1 w2 : World) :
  image_dir w1 = image_dir w2 ->
  result (rebuild_loop entries embeddings new_metadata) w1
  = result (rebuild_loop entries embeddings new_metadata) w2.
Proof.
  intros E. unfold result. revert embeddings new_metadata.
  induction entries as [|[fname data] rest IH]; intros embs md; simpl;
    [reflexivity|].
  destruct (entry_fields data) as [cmt tgs]. unfold bind, gets. simpl.
  rewrite <- E.
  destruct (image_dir w1 !! fname) as [image|] eqn:E1; [|apply IH].
  rewrite !process_image_text_pair_run, <- E, E1.
  destruct (clip_forward image _) as [[ie te]|]; [apply IH | reflexivity].
Qed.

(** The two accumulators of the rebuild loop grow together. *)
Lemma rebuild_loop_lengths (entries : list (string * CatalogValue))
  (embeddings : list Vec) (new_metadata : list Item) (w : World)
  (embeddings' : list Vec) (new_metadata' : list Item) :
  length embeddings = length new_metadata ->
  result (rebuild_loop entries embeddings new_metadata) w
  = Returned (embeddings', new_metadata') ->
  length embeddings' = length new_metadata'.
Proof.
  unfold result. revert embeddings new_metadata.
  induction entries as [|[fname data] rest IH]; intros embs md Hlen; simpl.
  - intros [= <- <-]. exact Hlen.
  - destruct (entry_fields data) as [cmt tgs]. unfold bind, gets. simpl.
    destruct (image_dir w !! fname) as [image|] eqn:E; [|now apply IH].
    rewrite process_image_text_pair_run, E.
    destruct (clip_forward image _) as [[ie te]|]; [|discriminate].
    apply IH. rewrite !length_app. simpl. lia.
Qed.

End Readers.

(** ** RebuildIndex *)

Section Rebuild.

Context `{Provider}.

Lemma rebuild_index_run (w : World) :
  rebuild_index w =
  match comments_file w with
  | Missing => (reset_globals w, Returned rebuilt_message)
  | Corrupt => (reset_globals w, Raised (JSONDecodeError COMMENTS_FILE))
  | Content comments_data =>
      match result (rebuild_loop comments_data [] []) (reset_globals w) with
      | Raised e => (reset_globals w, Raised e)
      | Returned ([], new_metadata) =>
          (mkWorld (image_dir w) (comments_file w) (index_file w)
             (metadata_file w) [] new_metadata,
           Returned rebuilt_message)
      | Returned (embeddings, new_metadata) =>
          (mkWorld (image_dir w) (comments_file w) (Content embeddings)
             (Content new_metadata) embeddings new_metadata,
           Returned rebuilt_message)
      end
  end.
Proof.
  unfold rebuild_index, bind, gets, modify. simpl.
  destruct (comments_file w) as [| |c] eqn:Ecf; simpl; try reflexivity.
  unfold bind. simpl.
  pose proof (rebuild_loop_state c [] [] (reset_globals w)) as Hst.
  unfold after, result in *.
  destruct (rebuild_loop c [] [] (reset_globals w)) as [w' [e|[embs md]]];
    simpl in *; subst w'; [reflexivity|].
  destruct embs as [|emb embs]; unfold ret, set_metadata; simpl;
    rewrite ?Ecf; reflexivity.
Qed.

Lemma reset_globals_idem (w : World) :
  reset_globals (reset_globals w) = reset_globals w.
Proof. reflexivity. Qed.

(** C5: with the Catalog Store and the image directory as they are,
    a second RebuildIndex right after a first one leaves the metadata
    sequence and the index (the same vectors, position by position) exactly
    as the first call left them; so are the persisted files, and the second
    call ends the way the first did. *)
Theorem rebuild_index_idempotent (w : World) :
  let w1 := after rebuild_index w in
  let w2 := after rebuild_index w1 in
  metadata w2 = metadata w1
  /\ index w2 = index w1
  /\ w2 = w1
  /\ comments_file w1 = comments_file w
  /\ image_dir w1 = image_dir w
  /\ result rebuild_index w1 = result rebuild_index w.
Proof.
  cbv zeta. unfold after, result. rewrite (rebuild_index_run w).
  destruct (comments_file w) as [| |c] eqn:Ecf.
  - simpl. rewrite rebuild_index_run. simpl. rewrite Ecf. simpl. auto 7.
  - simpl. rewrite rebuild_index_run. simpl. rewrite Ecf. simpl. auto 7.
  - destruct (result (rebuild_loop c [] []) (reset_globals w))
      as [e|[[|emb embs] md]] eqn:Efirst;
      simpl; rewrite rebuild_index_run; simpl; rewrite ?Ecf;
      rewrite (rebuild_loop_frame c [] [] _ (reset_globals w)) by reflexivity;
      rewrite Efirst; simpl; auto 7.
Qed.

(** C10, RebuildIndex half, as a lemma of its own: when no catalog entry
    survives, both globals are empty and neither persisted file is
    touched. *)
Lemma rebuild_index_empty_frame (w : World) :
  metadata (after rebuild_index w) = [] ->
  index (after rebuild_index w) = []
  /\ index_file (after rebuild_index w) = index_file w
  /\ metadata_file (after rebuild_index w) = metadata_file w.
Proof.
  unfold after. rewrite rebuild_index_run.
  destruct (comments_file w) as [| |c] eqn:Ecf; simpl; auto.
  destruct (result _ _) as [e|[[|emb embs] md]] eqn:Eloop; simpl; auto.
  intros ->. apply rebuild_loop_lengths in Eloop; [discriminate|reflexivity].
Qed.

(** X9: RebuildIndex always ends with as many vectors as metadata items. *)
Lemma rebuild_index_lockstep (w : World) :
  length (index (after rebuild_index w))
  = length (metadata (after rebuild_index w)).
Proof.
  unfold after. rewrite rebuild_index_run.
  destruct (comments_file w) as [| |c]; simpl; trivial.
  destruct (result _ _) as [e|[embs md]] eqn:Eloop; simpl; trivial.
  apply rebuild_loop_lengths in Eloop; [|reflexivity].
  destruct embs; simpl; trivial.
Qed.

End Rebuild.

(** ** DeleteItem *)

Section Delete.

Context `{Provider}.

Lemma delete_item_body_run (fname : string) (w : World) :
  delete_item_body fname w =
  let w1 := set_image_dir (delete fname (image_dir w)) w in
  match comments_file w with
  | Missing => (w1, Raised (FileNotFoundError COMMENTS_FILE))
  | Corrupt => (w1, Raised (JSONDecodeError COMMENTS_FILE))
  | Content comments_data =>
      if PyDict.mem fname comments_data then
        let md := List.filter (keep_other fname) (metadata w) in
        let w2 :=
          mkWorld (delete fname (image_dir w))
            (Content (PyDict.remove fname comments_data))
            (index_file w) (Content md) [] md in
        match md with
        | [] => (w2, Returned deleted_message)
        | _ :: _ =>
            match result (mapM embed_item md) w2 with
            | Raised e => (w2, Raised e)
            | Returned embeddings =>
                (mkWorld (delete fname (image_dir w))
                   (Content (PyDict.remove fname comments_data))
                   (Content embeddings) (Content md) embeddings md,
                 Returned deleted_message)
            end
        end
      else (w1, Raised (KeyError fname))
  end.
Proof.
  unfold delete_item_body, bind, gets, modify. simpl.
  destruct (comments_file w) as [| |c] eqn:Ecf; simpl; try reflexivity.
  destruct (PyDict.mem fname c); simpl; [|reflexivity].
  destruct (List.filter (keep_other fname) (metadata w)) as [|item md] eqn:Emd;
    simpl; [reflexivity|].
  change (bind (embed_item item) _) with (mapM embed_item (item :: md)).
  set (w2 := mkWorld (delete fname (image_dir w))
               (Content (PyDict.remove fname c)) (index_file w)
               (Content (item :: md)) [] (item :: md)).
  change (set_index [] _) with w2.
  pose proof (mapM_embed_state (item :: md) w2) as Hst.
  unfold after, result in *.
  destruct (mapM embed_item (item :: md) w2) as [w' [e|embs]];
    simpl in *; subst w'; reflexivity.
Qed.

(** The handler of [except Exception] returns a payload for whatever the
    guarded block raises, so the guarded call itself always returns. *)
Lemma catch_all_returns (body : M Response) (w : World) :
  exists payload : Response,
    result (catch body (fun e => ret (Error (exn_str e)))) w
    = Returned payload.
Proof.
  unfold result, catch, ret.
  destruct (body w) as [w' [e|r]]; simpl; eauto.
Qed.

(** C7: DeleteItem always returns a payload to its caller and never raises:
    whatever error a step of its body raises (the catalog file missing or
    not valid JSON, the filename not a key of it, an image that cannot be
    read or decoded while re-embedding) is caught and comes back as the
    error payload carrying that error's message; the world is left as the
    failing step left it. *)
Theorem delete_item_never_raises (fname : string) (w : World) :
  exists payload : Response,
    result (delete_item fname) w = Returned payload
    /\ after (delete_item fname) w = after (delete_item_body fname) w
    /\ (forall e, result (delete_item_body fname) w = Raised e ->
        payload = Error (exn_str e))
    /\ (forall r, result (delete_item_body fname) w = Returned r ->
        payload = r).
Proof.
  unfold result, after, delete_item, catch, ret.
  destruct (delete_item_body fname w) as [w' [e|r]]; simpl.
  - exists (Error (exn_str e)). repeat split; trivial.
    + now intros e' [= <-].
    + discriminate.
  - exists r. repeat split; trivial.
    + discriminate.
    + now intros r' [= <-].
Qed.

Lemma delete_item_success (fname : string) (w : World) (text : string) :
  result (delete_item fname) w = Returned (Message text) ->
  result (delete_item_body fname) w = Returned (Message text).
Proof.
  unfold result, delete_item, catch, ret.
  destruct (delete_item_body fname w) as [w' [e|r]]; simpl; [discriminate|].
  trivial.
Qed.

Lemma delete_item_after (fname : string) (w : World) :
  after (delete_item fname) w = after (delete_item_body fname) w.
Proof.
  unfold after, delete_item, catch, ret.
  now destruct (delete_item_body fname w) as [w' [e|r]].
Qed.

(** After a DeleteItem that reports success, the metadata sequence is the
    old one without the entries of the deleted filename. *)
Lemma delete_item_metadata (fname : string) (w : World) (text : string) :
  result (delete_item fname) w = Returned (Message text) ->
  metadata (after (delete_item fname) w)
  = List.filter (keep_other fname) (metadata w).
Proof.
  intros Hok. apply delete_item_success in Hok. revert Hok.
  rewrite delete_item_after. unfold result, after.
  rewrite delete_item_body_run. cbv zeta.
  destruct (comments_file w) as [| |c]; simpl; try discriminate.
  destruct (PyDict.mem fname c); simpl; [|discriminate].
  destruct (List.filter (keep_other fname) (metadata w)) as [|item md];
    simpl; [reflexivity|].
  destruct (result _ _); simpl; [discriminate | reflexivity].
Qed.

(** A DeleteItem that reports success ends with as many vectors as
    metadata items, whatever the two lengths were before. *)
Lemma delete_item_restores_lockstep (fname : string) (w : World)
  (text : string) :
  result (delete_item fname) w = Returned (Message text) ->
  length (index (after (delete_item fname) w))
  = length (metadata (after (delete_item fname) w)).
Proof.
  intros Hok. apply delete_item_success in Hok. revert Hok.
  rewrite delete_item_after. unfold result at 1, after.
  rewrite delete_item_body_run. cbv zeta.
  destruct (comments_file w) as [| |c]; simpl; try discriminate.
  destruct (PyDict.mem fname c); simpl; [|discriminate].
  destruct (List.filter (keep_other fname) (metadata w)) as [|item md];
    simpl; [reflexivity|].
  destruct (result _ _) as [e|embs] eqn:Emap; simpl; [discriminate|].
  intros _.
  change (bind (embed_item item) _) with (mapM embed_item (item :: md))
    in Emap.
  now apply mapM_embed_length in Emap.
Qed.

(** A filename the catalog does not know: the [KeyError] of [del] comes
    back as the error payload, and neither global is touched. *)
Lemma delete_item_unknown_filename (fname : string) (w : World)
  (comments_data : PyDict.t CatalogValue) :
  comments_file w = Content comments_data ->
  PyDict.mem fname comments_data = false ->
  result (delete_item fname) w = Returned (Error ("'" ++ fname ++ "'"))
  /\ index (after (delete_item fname) w) = index w
  /\ metadata (after (delete_item fname) w) = metadata w.
Proof.
  intros Hcf Hmem.
  unfold result, after, delete_item, catch.
  rewrite delete_item_body_run. cbv zeta. rewrite Hcf, Hmem. simpl. auto.
Qed.

(** C10, amended: a DeleteItem or RebuildIndex call that ends with an empty
    metadata sequence does not rewrite the index file, which keeps the
    contents it had before the call.  The in-memory index is emptied by
    every such RebuildIndex call and by every such DeleteItem call that
    reports success; a DeleteItem call that reports an error has left the
    in-memory index as it was.  RebuildIndex leaves the metadata file
    unwritten too. *)
Theorem empty_result_keeps_index_file (fname : string) (w : World) :
  (metadata (after (delete_item fname) w) = [] ->
   index_file (after (delete_item fname) w) = index_file w
   /\ (forall text,
         result (delete_item fname) w = Returned (Message text) ->
         index (after (delete_item fname) w) = [])
   /\ (forall text,
         result (delete_item fname) w = Returned (Error text) ->
         index (after (delete_item fname) w) = index w))
  /\ (metadata (after rebuild_index w) = [] ->
      index (after rebuild_index w) = []
      /\ index_file (after rebuild_index w) = index_file w
      /\ metadata_file (after rebuild_index w) = metadata_file w).
Proof.
  split; [|apply rebuild_index_empty_frame].
  intros Hmd. split; [|split].
  - rewrite delete_item_after in *.
    revert Hmd. unfold after. rewrite delete_item_body_run. cbv zeta.
    destruct (comments_file w) as [| |c]; simpl; trivial.
    destruct (PyDict.mem fname c); simpl; trivial.
    destruct (List.filter (keep_other fname) (metadata w)) as [|item md];
      simpl; trivial.
    destruct (result _ _); simpl; [trivial | discriminate].
  - rewrite delete_item_after in *.
    intros text Hok. apply delete_item_success in Hok.
    revert Hmd Hok. unfold after, result.
    rewrite delete_item_body_run. cbv zeta.
    destruct (comments_file w) as [| |c]; simpl; try discriminate.
    destruct (PyDict.mem fname c); simpl; [|discriminate].
    destruct (List.filter (keep_other fname) (metadata w)) as [|item md];
      simpl; trivial.
    destruct (result _ _); simpl; discriminate.
  - intros text Herr. revert Hmd Herr.
    unfold after, result, delete_item, catch, ret.
    rewrite delete_item_body_run. cbv zeta.
    destruct (comments_file w) as [| |c]; simpl; trivial.
    destruct (PyDict.mem fname c); simpl; trivial.
    destruct (List.filter (keep_other fname) (metadata w)) as [|item md];
      simpl; [discriminate|].
    destruct (result _ _); simpl; discriminate.
Qed.

End Delete.

(** ** Search *)

Section Search.

Context `{Provider}.

Lemma py_getitem_in {A} (l : list A) (i : Z) (x : A) :
  py_getitem l i = Some x -> List.In x l.
Proof.
  unfold py_getitem.
  destruct (i <? 0)%Z; [destruct (0 <=? _)%Z; [|discriminate]|];
    apply nth_error_In.
Qed.

Lemma collect_results_run (md : list Item) (max_distance : pyfloat)
  (hits : list Hit) (w : World) :
  after (collect_results md max_distance hits) w = w.
Proof.
  unfold after. induction hits as [|[d idx] rest IH]; simpl; [reflexivity|].
  destruct (float_le d max_distance && (idx <? _)%Z); [|exact IH].
  destruct (py_getitem md idx); [|reflexivity].
  unfold bind.
  destruct (collect_results md max_distance rest w) as [w' [e|items]];
    simpl in *; assumption.
Qed.

(** Whatever the comprehension returns was read out of [metadata]. *)
Lemma collect_results_in (md : list Item) (max_distance : pyfloat)
  (hits : list Hit) (w : World) (results : list Item) :
  result (collect_results md max_distance hits) w = Returned results ->
  forall item, List.In item results -> List.In item md.
Proof.
  unfold result. revert results.
  induction hits as [|[d idx] rest IH]; simpl; intros results.
  - intros [= <-] item [].
  - destruct (float_le d max_distance && (idx <? _)%Z); [|apply IH].
    destruct (py_getitem md idx) as [found|] eqn:Eget; [|discriminate].
    unfold bind.
    destruct (collect_results md max_distance rest w) as [w' [e|items]];
      simpl in *; [discriminate|].
    intros [= <-] item [<-|Hin].
    + eapply py_getitem_in, Eget.
    + eapply IH; [reflexivity | exact Hin].
Qed.

Lemma query_vector_run (image : bytes) (cmt : string) (w : World) :
  query_vector image cmt w =
  (w, if negb (PyStr.is_empty cmt) then
        match clip_forward image cmt with
        | None => Raised UnidentifiedImageError
        | Some (image_emb, text_emb) =>
            Returned (astype_float32 (combined_emb image_emb text_emb))
        end
      else
        match get_image_features image with
        | None => Raised UnidentifiedImageError
        | Some image_emb =>
            Returned (astype_float32 (vdiv image_emb (norm image_emb)))
        end).
Proof.
  unfold query_vector, query_embedding, bind.
  destruct (negb (PyStr.is_empty cmt)).
  - destruct (clip_forward image cmt) as [[ie te]|]; reflexivity.
  - destruct (get_image_features image); reflexivity.
Qed.

Lemma search_image_run (image : bytes) (cmt : string) (k : nat)
  (max_distance : pyfloat) (w : World) :
  search_image image cmt k max_distance w =
  (w, match result (query_vector image cmt) w with
      | Raised e => Raised e
      | Returned query_emb =>
          result (collect_results (metadata w) max_distance
                    (index_search (index w) query_emb k)) w
      end).
Proof.
  unfold search_image, bind, result. rewrite query_vector_run. simpl.
  destruct (if negb _ then _ else _) as [e|q]; [reflexivity|].
  unfold gets. simpl.
  pose proof (collect_results_run (metadata w) max_distance
                (index_search (index w) q k) w) as Hst.
  unfold after in Hst.
  destruct (collect_results _ _ _ w) as [w' r]. simpl in *. now subst.
Qed.

(** Search changes neither global nor any file. *)
Lemma search_image_state (image : bytes) (cmt : string) (k : nat)
  (max_distance : pyfloat) (w : World) :
  after (search_image image cmt k max_distance) w = w.
Proof. unfold after. now rewrite search_image_run. Qed.

Lemma search_image_in (image : bytes) (cmt : string) (k : nat)
  (max_distance : pyfloat) (w : World) (results : list Item) :
  result (search_image image cmt k max_distance) w = Returned results ->
  forall item, List.In item results -> List.In item (metadata w).
Proof.
  unfold result at 1. rewrite search_image_run. simpl.
  destruct (result (query_vector image cmt) w) as [e|q]; [discriminate|].
  apply collect_results_in.
Qed.

(** C6: once DeleteItem(filename) has reported success, a Search on the
    world it left, with any query image, comment, k and max_distance,
    returns no item whose filename is the deleted one; and since Search
    leaves the world as it found it, the same holds for every further
    Search up to the next mutating call. *)
Theorem search_after_delete (fname text : string) (w : World)
  (image : bytes) (cmt : string) (k : nat) (max_distance : pyfloat)
  (results : list Item) :
  result (delete_item fname) w = Returned (Message text) ->
  let w' := after (delete_item fname) w in
  result (search_image image cmt k max_distance) w' = Returned results ->
  (forall item, List.In item results -> filename item <> fname)
  /\ after (search_image image cmt k max_distance) w' = w'.
Proof.
  intros Hdel w' Hsearch. split; [|apply search_image_state].
  intros item Hin.
  apply (search_image_in _ _ _ _ _ _ Hsearch) in Hin.
  subst w'. rewrite (delete_item_metadata _ _ _ Hdel) in Hin.
  apply List.filter_In in Hin as [_ Hkeep].
  unfold keep_other in Hkeep.
  destruct (String.eqb_spec (filename item) fname); [discriminate|assumption].
Qed.

(** C9: on an image and a non-empty comment, the query vector Search
    computes is the vector [process_image_text_pair], the embedding AddItem
    stores, computes on the same image and text: the element-wise average of
    the L2-normalized image embedding and the L2-normalized text embedding;
    on an empty comment it is the L2-normalized image embedding alone. *)
Theorem query_embedding_matches_storage (w : World) (fname : string)
  (image : bytes) (cmt : string) :
  image_dir w !! fname = Some image ->
  (cmt <> "" ->
   result (query_vector image cmt) w
   = result (process_image_text_pair fname cmt) w
   /\ result (query_vector image cmt) w = spec_embed image (Some cmt))
  /\ result (query_vector image "") w = spec_embed image None.
Proof.
  intros Himg. unfold result.
  rewrite !query_vector_run, process_image_text_pair_run, Himg. simpl.
  split; [|reflexivity].
  intros Hne. destruct cmt as [|c cmt]; [congruence|]. simpl.
  unfold combined_emb, average, l2_normalize.
  destruct (clip_forward image _) as [[ie te]|]; split; reflexivity.
Qed.

End Search.

(** ** AnalyzeOutfit *)

Section OutfitFacts.

Variable uuid4 : nat -> string.

Lemma passes_filter_true (comp : Det.t) :
  passes_filter comp = true ->
  (3 # 4 <= Det.confidence comp)%Q /\ is_excluded (Det.category comp) = false.
Proof.
  unfold passes_filter. intros Hp.
  apply andb_prop in Hp as [Hc He].
  split; [now apply Qle_bool_iff | now apply negb_true_iff].
Qed.

Lemma passes_filter_false (comp : Det.t) :
  passes_filter comp = false ->
  (Det.confidence comp < 3 # 4)%Q \/ is_excluded (Det.category comp) = true.
Proof.
  unfold passes_filter. intros Hp.
  apply andb_false_iff in Hp as [Hc|He].
  - left. apply Qnot_le_lt. intros Hle. apply Qle_bool_iff in Hle. congruence.
  - right. now apply negb_false_iff.
Qed.

Lemma tracker_ok_nil : tracker_ok [] [].
Proof.
  split; simpl.
  - constructor.
  - discriminate.
  - intros d [].
Qed.

(** What an iteration that does not raise has done. *)
Lemma track_returned (shape : Shape) (st st' : Tracker) (comp : Det.t) :
  track uuid4 shape st comp = Returned st' ->
  (passes_filter comp && improves (category_tracker st) comp = true
   /\ crop_empty shape (crop_of comp) = false
   /\ st' = enter uuid4 st comp)
  \/ (passes_filter comp && improves (category_tracker st) comp = false
      /\ st' = st).
Proof.
  unfold track.
  destruct (passes_filter comp && improves (category_tracker st) comp).
  - destruct (crop_empty shape (crop_of comp)); [discriminate|].
    intros [= <-]. now left.
  - intros [= <-]. now right.
Qed.

Lemma track_improving (shape : Shape) (st : Tracker) (comp : Det.t) :
  passes_filter comp && improves (category_tracker st) comp = true ->
  track uuid4 shape st comp =
  if crop_empty shape (crop_of comp) then Raised CvError
  else Returned (enter uuid4 st comp).
Proof. intros Hc. unfold track. now rewrite Hc. Qed.

Lemma track_skipping (shape : Shape) (st : Tracker) (comp : Det.t) :
  passes_filter comp && improves (category_tracker st) comp = false ->
  track uuid4 shape st comp = Returned st.
Proof. intros Hc. unfold track. now rewrite Hc. Qed.

Lemma track_ok (shape : Shape) (seen : list Det.t) (st st' : Tracker)
  (comp : Det.t) :
  track uuid4 shape st comp = Returned st' ->
  tracker_ok seen (category_tracker st) ->
  tracker_ok (seen ++ [comp]) (category_tracker st').
Proof.
  intros Htrack [Hnd Hentry Htracked].
  apply track_returned in Htrack.
  destruct (passes_filter comp) eqn:Epass; simpl in Htrack.
  - destruct (passes_filter_true _ Epass) as [Hconf Hexcl].
    destruct (improves (category_tracker st) comp) eqn:Eimp;
      (destruct Htrack as [(Hck & _ & ->)|(Hck & ->)]; [|]);
      try discriminate.
    + (* the detection replaces or opens its category *)
      unfold enter. simpl.
      split.
      * now apply PyDictFacts.keys_set_nodup.
      * intros k g Hget.
        destruct (string_dec (Det.category comp) k) as [Ek|Ek].
        -- subst k. rewrite PyDictFacts.get_set_same in Hget.
           injection Hget as <-. simpl.
           repeat split; trivial.
           ++ exists comp. split; [|split; reflexivity].
              apply List.in_or_app. right. now left.
           ++ intros d Hd Hcat.
              apply List.in_app_or in Hd as [Hd|[<-|[]]]; [|apply Qle_refl].
              unfold improves in Eimp.
              destruct (PyDict.get (Det.category comp) (category_tracker st))
                as [kept|] eqn:Ekept.
              ** destruct (Hentry _ _ Ekept) as (_ & _ & _ & _ & Hmax).
                 apply Qle_trans with (Seg.confidence kept);
                   [now apply Hmax|].
                 apply Qlt_le_weak, Qnot_le_lt. intros Hle.
                 apply Qle_bool_iff in Hle. rewrite Hle in Eimp.
                 discriminate.
              ** destruct (passes_filter d) eqn:Ed.
                 --- exfalso. apply (Htracked d Hd Ed). now rewrite Hcat.
                 --- destruct (passes_filter_false _ Ed) as [Hlow|Hex].
                     +++ apply Qlt_le_weak. eapply Qlt_le_trans; eassumption.
                     +++ rewrite Hcat in Hex. congruence.
        -- rewrite PyDictFacts.get_set_other in Hget by assumption.
           destruct (Hentry _ _ Hget) as (Hc & Hq & Hx & (d & Hd & Hdc & Hdq) & Hmax).
           repeat split; trivial.
           ++ exists d. repeat split; trivial. apply List.in_or_app. now left.
           ++ intros d' Hd' Hcat.
              apply List.in_app_or in Hd' as [Hd'|[<-|[]]];
                [now apply Hmax | congruence].
      * intros d Hd Hp.
        destruct (string_dec (Det.category comp) (Det.category d)) as [Ek|Ek].
        -- rewrite <- Ek, PyDictFacts.get_set_same. discriminate.
        -- rewrite PyDictFacts.get_set_other by assumption.
           apply List.in_app_or in Hd as [Hd|[<-|[]]];
             [now apply Htracked | congruence].
    + (* a detection of the category with at least this confidence is kept *)
      unfold improves in Eimp.
      destruct (PyDict.get (Det.category comp) (category_tracker st))
        as [kept|] eqn:Ekept; [|discriminate].
      apply negb_false_iff, Qle_bool_iff in Eimp.
      split; trivial.
      * intros k g Hget.
        destruct (Hentry _ _ Hget) as (Hc & Hq & Hx & (d & Hd & Hdc & Hdq) & Hmax).
        repeat split; trivial.
        -- exists d. repeat split; trivial. apply List.in_or_app. now left.
        -- intros d' Hd' Hcat.
           apply List.in_app_or in Hd' as [Hd'|[<-|[]]]; [now apply Hmax|].
           rewrite Hcat in Ekept. rewrite Ekept in Hget.
           injection Hget as <-. exact Eimp.
      * intros d Hd Hp.
        apply List.in_app_or in Hd as [Hd|[<-|[]]]; [now apply Htracked|].
        rewrite Ekept. discriminate.
  - (* filtered out *)
    destruct Htrack as [(Hc & _)|(_ & ->)]; [discriminate|].
    split; trivial.
    + intros k g Hget.
      destruct (Hentry _ _ Hget) as (Hc & Hq & Hx & (d & Hd & Hdc & Hdq) & Hmax).
      repeat split; trivial.
      * exists d. repeat split; trivial. apply List.in_or_app. now left.
      * intros d' Hd' Hcat.
        apply List.in_app_or in Hd' as [Hd'|[<-|[]]]; [now apply Hmax|].
        destruct (passes_filter_false _ Epass) as [Hlow|Hex].
        -- apply Qlt_le_weak. eapply Qlt_le_trans; eassumption.
        -- rewrite Hcat in Hex. congruence.
    + intros d Hd Hp.
      apply List.in_app_or in Hd as [Hd|[<-|[]]]; [now apply Htracked|].
      congruence.
Qed.

Lemma track_all_ok (shape : Shape) (components seen : list Det.t)
  (st st' : Tracker) :
  track_all uuid4 shape components st = Returned st' ->
  tracker_ok seen (category_tracker st) ->
  tracker_ok (seen ++ components) (category_tracker st').
Proof.
  revert seen st.
  induction components as [|comp rest IH]; intros seen st Hrun Hok.
  - simpl in Hrun. injection Hrun as <-. now rewrite List.app_nil_r.
  - simpl in Hrun.
    destruct (track uuid4 shape st comp) as [e|st1] eqn:Estep;
      [discriminate|].
    replace (seen ++ comp :: rest)%list
      with ((seen ++ [comp]) ++ rest)%list
      by now rewrite <- List.app_assoc.
    apply (IH _ _ Hrun). exact (track_ok _ _ _ _ _ Estep Hok).
Qed.

Lemma run_tracker_ok (shape : Shape) (components : list Det.t)
  (st : Tracker) :
  run_tracker uuid4 shape components = Returned st ->
  tracker_ok components (category_tracker st).
Proof.
  intros Hrun.
  exact (track_all_ok shape components [] _ _ Hrun tracker_ok_nil).
Qed.

(** The loop raises only at an empty crop: where every detection has a
    crop with pixels, it runs to its end. *)
Lemma track_all_returns (shape : Shape) (components : list Det.t)
  (st : Tracker) :
  (forall d, List.In d components -> crop_empty shape (crop_of d) = false) ->
  exists st', track_all uuid4 shape components st = Returned st'.
Proof.
  revert st. induction components as [|comp rest IH]; intros st Hpix.
  - now exists st.
  - simpl. unfold track. rewrite (Hpix comp) by now left.
    destruct (passes_filter comp && improves (category_tracker st) comp);
      apply IH; intros d Hd; apply Hpix; now right.
Qed.

(** The first detection that passes the filter and has no pixel in its
    crop ends the request. *)
Lemma track_all_raises (shape : Shape) (comp : Det.t)
  (rest : list Det.t) :
  passes_filter comp = true ->
  crop_empty shape (crop_of comp) = true ->
  run_tracker uuid4 shape (comp :: rest) = Raised CvError.
Proof.
  intros Hp He. unfold run_tracker. simpl. unfold track. simpl.
  now rewrite Hp, He.
Qed.

Lemma values_categories (seen : list Det.t) (t : PyDict.t Seg.t) :
  tracker_ok seen t ->
  List.map Seg.category (PyDict.values t) = PyDict.keys t.
Proof.
  intros [Hnd Hentry _]. unfold PyDict.values, PyDict.keys.
  rewrite List.map_map. apply List.map_ext_in.
  intros [k g] Hin. simpl.
  apply (PyDictFacts.in_get_some _ _ _ Hnd) in Hin.
  now destruct (Hentry _ _ Hin).
Qed.

Variable segment_clothing : bytes -> outcome (list Det.t * Shape).

Lemma analyze_outfit_returned (image : bytes) (output : list Seg.t) :
  analyze_outfit uuid4 segment_clothing image = Returned output ->
  exists components shape st,
    segment_clothing image = Returned (components, shape)
    /\ run_tracker uuid4 shape components = Returned st
    /\ output = PyDict.values (category_tracker st).
Proof.
  unfold analyze_outfit.
  destruct (segment_clothing image) as [e|[components shape]];
    [discriminate|].
  destruct (run_tracker uuid4 shape components) as [e|st] eqn:Erun;
    [discriminate|].
  intros [= <-]. now exists components, shape, st.
Qed.

(** Where every detected box has pixels, AnalyzeOutfit returns. *)
Lemma analyze_outfit_returns (image : bytes) (components : list Det.t)
  (shape : Shape) :
  segment_clothing image = Returned (components, shape) ->
  (forall d, List.In d components -> crop_empty shape (crop_of d) = false) ->
  exists output, analyze_outfit uuid4 segment_clothing image = Returned output.
Proof.
  intros Hseg Hpix. unfold analyze_outfit, run_tracker. rewrite Hseg.
  destruct (track_all_returns shape components (mkTracker [] 1 []) Hpix)
    as [st ->].
  now eexists.
Qed.

(** C8: a list AnalyzeOutfit returns has no two components of the same
    category; each component has confidence at least 0.75 and a category
    outside the exclusion set; each is one of the detections, and no
    detection of its category has a higher confidence.  (The request
    raises instead of returning when a crop it has to write is empty.) *)
Theorem analyze_outfit_dedup (image : bytes) (components : list Det.t)
  (shape : Shape) (output : list Seg.t) :
  segment_clothing image = Returned (components, shape) ->
  analyze_outfit uuid4 segment_clothing image = Returned output ->
  List.NoDup (List.map Seg.category output)
  /\ forall g, List.In g output ->
       (3 # 4 <= Seg.confidence g)%Q
       /\ ~ List.In (Seg.category g) excluded_categories
       /\ (exists d, List.In d components
                     /\ Det.category d = Seg.category g
                     /\ Det.confidence d = Seg.confidence g)
       /\ (forall d, List.In d components ->
             Det.category d = Seg.category g ->
             (Det.confidence d <= Seg.confidence g)%Q).
Proof.
  intros Hseg Hout.
  destruct (analyze_outfit_returned _ _ Hout)
    as (components' & shape' & st & Hseg' & Hrun & ->).
  rewrite Hseg in Hseg'. injection Hseg' as <- <-.
  pose proof (run_tracker_ok _ _ _ Hrun) as Hok.
  split.
  - rewrite (values_categories _ _ Hok). apply Hok.
  - intros g Hg. unfold PyDict.values in Hg.
    apply List.in_map_iff in Hg as ([k g'] & Heq & Hin). simpl in Heq. subst g'.
    apply (PyDictFacts.in_get_some _ _ _ (ok_nodup _ _ Hok)) in Hin.
    destruct (ok_entry _ _ Hok _ _ Hin) as (Hc & Hq & Hx & Hd & Hmax).
    subst k. repeat split; trivial.
    intros Hin'. unfold is_excluded in Hx.
    assert (existsb (String.eqb (Seg.category g)) excluded_categories = true)
      as Hex; [|congruence].
    apply List.existsb_exists. eexists. split; [exact Hin'|].
    apply String.eqb_refl.
Qed.

End OutfitFacts.

(** ** The flat index *)

Section FlatIndex.

Context `{Provider}.

Lemma insert_hit_perm (h : Hit) (l : list Hit) :
  Permutation (insert_hit h l) (h :: l).
Proof.
  induction l as [|h' r IH]; simpl; [reflexivity|].
  destruct (Qle_bool (fst h) (fst h')); [reflexivity|].
  rewrite IH. apply perm_swap.
Qed.

Lemma sort_hits_perm (l : list Hit) : Permutation (sort_hits l) l.
Proof.
  induction l as [|h r IH]; simpl; [reflexivity|].
  rewrite insert_hit_perm. now apply perm_skip.
Qed.

Lemma insert_hit_sorted (h : Hit) (l : list Hit) :
  Sorted hit_le l -> Sorted hit_le (insert_hit h l).
Proof.
  induction l as [|h' r IH]; simpl; intros Hs.
  - repeat constructor.
  - destruct (Qle_bool (fst h) (fst h')) eqn:E.
    + constructor; [assumption|]. constructor. now apply Qle_bool_iff.
    + inversion Hs as [|? ? Hr Hhd]; subst.
      assert (Hlt : hit_le h' h).
      { apply Qlt_le_weak, Qnot_le_lt. intros Hle.
        apply Qle_bool_iff in Hle. congruence. }
      constructor; [now apply IH|].
      destruct r as [|h'' r']; simpl.
      * now constructor.
      * destruct (Qle_bool (fst h) (fst h'')); constructor; trivial.
        now inversion Hhd.
Qed.

Lemma sort_hits_sorted (l : list Hit) : Sorted hit_le (sort_hits l).
Proof.
  induction l as [|h r IH]; simpl; [constructor|].
  now apply insert_hit_sorted.
Qed.

Lemma sort_hits_length (l : list Hit) : length (sort_hits l) = length l.
Proof. apply Permutation_length, sort_hits_perm. Qed.

Lemma enumerate_from_length {A} (i : Z) (l : list A) :
  length (enumerate_from i l) = length l.
Proof. revert i. induction l; simpl; intros; [|rewrite IHl]; reflexivity. Qed.

Lemma score_length (query : Vec) (xs : list Vec) :
  length (score query xs) = length xs.
Proof. unfold score. now rewrite length_map, enumerate_from_length. Qed.

Lemma enumerate_from_range {A} (i : Z) (l : list A) (p : Z * A) :
  List.In p (enumerate_from i l) ->
  (i <= fst p < i + Z.of_nat (length l))%Z.
Proof.
  revert i. induction l as [|a r IH]; simpl; intros i; [tauto|].
  intros [<-|Hin]; simpl; [lia|]. apply IH in Hin. lia.
Qed.

(** Every label the scan produces is a position of the index. *)
Lemma score_range (query : Vec) (xs : list Vec) (h : Hit) :
  List.In h (score query xs) -> (0 <= snd h < Z.of_nat (length xs))%Z.
Proof.
  unfold score. intros Hin.
  apply List.in_map_iff in Hin as (p & <- & Hp).
  apply enumerate_from_range in Hp. simpl. lia.
Qed.

(** With [k] equal to the number of stored vectors there is no slot to
    pad. *)
Lemma index_search_exact (xs : list Vec) (query : Vec) :
  index_search xs query (length xs) = sort_hits (score query xs).
Proof.
  unfold index_search.
  rewrite List.firstn_all2
    by now rewrite sort_hits_length, score_length.
  rewrite sort_hits_length, score_length, Nat.sub_diag. simpl.
  apply List.app_nil_r.
Qed.

(** With a larger [k] the missing slots carry the label -1. *)
Lemma index_search_padded (xs : list Vec) (query : Vec) (extra : nat) :
  index_search xs query (length xs + extra)
  = (sort_hits (score query xs) ++ repeat no_hit extra)%list.
Proof.
  unfold index_search.
  rewrite List.firstn_all2
    by (rewrite sort_hits_length, score_length; lia).
  rewrite sort_hits_length, score_length.
  now replace (length xs + extra - length xs)%nat with extra by lia.
Qed.

End FlatIndex.

(** ** What Search returns with no distance bound *)

Section Ranking.

Context `{Provider}.

Lemma py_getitem_position {A} (l : list A) (i : Z) (d : A) :
  (0 <= i < Z.of_nat (length l))%Z ->
  py_getitem l i = Some (nth (Z.to_nat i) l d).
Proof.
  intros Hi. unfold py_getitem.
  destruct (Z.ltb_spec i 0); [lia|].
  apply nth_error_nth'. lia.
Qed.

(** [l[-1]] is the last element. *)
Lemma py_getitem_minus_one {A} (l : list A) (d : A) :
  l <> [] -> py_getitem l (-1) = Some (List.last l d).
Proof.
  intros Hne. unfold py_getitem. simpl.
  destruct (Z.leb_spec 0 (Z.of_nat (length l) + -1)) as [Hle|Hlt].
  - replace (Z.to_nat (Z.of_nat (length l) + -1)) with (length l - 1)%nat
      by lia.
    destruct (@exists_last _ l Hne) as (l' & a & ->).
    rewrite last_last, length_app. simpl.
    rewrite nth_error_app2 by lia.
    now replace (length l' + 1 - 1 - length l')%nat with 0%nat by lia.
  - destruct l; [congruence | simpl in Hlt; lia].
Qed.

Lemma collect_results_app (md : list Item) (max_distance : pyfloat)
  (hits more : list Hit) (w : World) :
  result (collect_results md max_distance (hits ++ more)) w =
  match result (collect_results md max_distance hits) w with
  | Raised e => Raised e
  | Returned items =>
      match result (collect_results md max_distance more) w with
      | Raised e => Raised e
      | Returned items' => Returned (items ++ items')%list
      end
  end.
Proof.
  unfold result. induction hits as [|[d idx] rest IH]; simpl.
  - now destruct (collect_results md max_distance more w) as [w' [e|r]].
  - destruct (float_le d max_distance && (idx <? _)%Z); [|exact IH].
    destruct (py_getitem md idx) as [item|]; [|reflexivity].
    unfold bind.
    destruct (collect_results md max_distance (rest ++ more) w)
      as [w1 [e1|r1]];
      destruct (collect_results md max_distance rest w) as [w2 [e2|r2]];
      destruct (collect_results md max_distance more w) as [w3 [e3|r3]];
      simpl in *; congruence.
Qed.

Lemma collect_results_positions (md : list Item) (hits : list Hit)
  (w : World) :
  (forall h, List.In h hits ->
             (0 <= snd h < Z.of_nat (length md))%Z) ->
  result (collect_results md PosInf hits) w
  = Returned (List.map (fun h => snd (ranked_item md h)) hits).
Proof.
  unfold result. induction hits as [|[d idx] rest IH]; intros Hrange; simpl.
  - reflexivity.
  - assert (Hidx : (0 <= idx < Z.of_nat (length md))%Z)
      by (apply (Hrange (d, idx)); now left).
    destruct (Z.ltb_spec idx (Z.of_nat (length md))); [|lia].
    rewrite (py_getitem_position md idx no_item Hidx).
    unfold bind.
    specialize (IH (fun h Hh => Hrange h (or_intror Hh))).
    destruct (collect_results md PosInf rest w) as [w' [e|items]];
      simpl in IH |- *; [discriminate|].
    injection IH as ->. reflexivity.
Qed.

Lemma collect_results_cons (md : list Item) (max_distance : pyfloat)
  (d : Q) (idx : Z) (rest : list Hit) (w : World) :
  collect_results md max_distance ((d, idx) :: rest) w =
  if float_le d max_distance && (idx <? Z.of_nat (length md))%Z then
    match py_getitem md idx with
    | None => (w, Raised IndexError)
    | Some item =>
        match collect_results md max_distance rest w with
        | (w', Raised e) => (w', Raised e)
        | (w', Returned items) => (w', Returned (item :: items))
        end
    end
  else collect_results md max_distance rest w.
Proof.
  simpl. destruct (float_le d max_distance && _); [|reflexivity].
  destruct (py_getitem md idx); reflexivity.
Qed.

(** The padded slots pass [idx < len(metadata)] and read [metadata[-1]]. *)
Lemma collect_results_padding (md : list Item) (max_distance : pyfloat)
  (extra : nat) (w : World) :
  float_le FLT_MAX max_distance = true ->
  result (collect_results md max_distance (repeat no_hit extra)) w =
  match extra, md with
  | O, _ => Returned []
  | S _, [] => Raised IndexError
  | S _, _ :: _ => Returned (repeat (List.last md no_item) extra)
  end.
Proof.
  intros Hle. unfold result.
  assert (Hneg : ((-1 <? Z.of_nat (length md))%Z = true))
    by (apply Z.ltb_lt; lia).
  destruct extra as [|extra]; [reflexivity|].
  destruct md as [|item md].
  - change (repeat no_hit (S extra)) with ((FLT_MAX, (-1)%Z) :: repeat no_hit extra).
    rewrite collect_results_cons, Hle, Hneg. reflexivity.
  - set (l := item :: md) in *.
    assert (Hlast : py_getitem l (-1) = Some (List.last l no_item))
      by (apply py_getitem_minus_one; discriminate).
    induction extra as [|extra IH].
    + change (repeat no_hit 1) with [(FLT_MAX, (-1)%Z)].
      rewrite collect_results_cons, Hle, Hneg, Hlast. reflexivity.
    + change (repeat no_hit (S (S extra)))
        with ((FLT_MAX, (-1)%Z) :: repeat no_hit (S extra)).
      rewrite collect_results_cons, Hle, Hneg, Hlast.
      destruct (collect_results l max_distance (repeat no_hit (S extra)) w)
        as [w' [e|items]]; simpl in IH |- *; [discriminate|].
      now injection IH as ->.
Qed.

Lemma collect_results_unpadded (md : list Item) (max_distance : pyfloat)
  (extra : nat) (w : World) :
  float_le FLT_MAX max_distance = false ->
  result (collect_results md max_distance (repeat no_hit extra)) w
  = Returned [].
Proof.
  intros Hle. unfold result.
  induction extra as [|extra IH]; simpl; [reflexivity|].
  now rewrite Hle.
Qed.

End Ranking.

Section Unbounded.

Context `{Provider}.

Lemma ranked_enumerate (query : Vec) (xs : list Vec) (md pre : list Item) :
  length xs = length md ->
  List.map (ranked_item (pre ++ md))
    (List.map (fun p => (l2sqr query (snd p), fst p))
       (enumerate_from (Z.of_nat (length pre)) xs))
  = with_distances query xs md.
Proof.
  unfold with_distances. revert md pre.
  induction xs as [|x xs IH]; intros [|item md] pre Hlen;
    try discriminate; simpl; [reflexivity|].
  f_equal.
  - unfold ranked_item. simpl. rewrite Nat2Z.id.
    rewrite List.app_nth2 by lia. now rewrite Nat.sub_diag.
  - specialize (IH md (pre ++ [item])%list).
    rewrite length_app, <- List.app_assoc in IH. simpl in IH.
    replace (Z.of_nat (length pre + 1)) with (Z.of_nat (length pre) + 1)%Z
      in IH by lia.
    apply IH. now injection Hlen.
Qed.

Lemma ranked_score (query : Vec) (xs : list Vec) (md : list Item) :
  length xs = length md ->
  List.map (ranked_item md) (score query xs) = with_distances query xs md.
Proof. intros Hlen. apply (ranked_enumerate query xs md [] Hlen). Qed.

Lemma ranked_sorted (md : list Item) (hits : list Hit) :
  Sorted hit_le hits -> Sorted nearer (List.map (ranked_item md) hits).
Proof.
  induction 1 as [|h hits Hs IH Hhd]; simpl; constructor; trivial.
  destruct Hhd; simpl; constructor. assumption.
Qed.

Lemma with_distances_items (query : Vec) (xs : list Vec) (md : list Item) :
  length xs = length md ->
  List.map snd (with_distances query xs md) = md.
Proof.
  unfold with_distances. revert md.
  induction xs as [|x xs IH]; intros [|item md] Hlen; try discriminate;
    simpl; [reflexivity|].
  f_equal. apply IH. now injection Hlen.
Qed.

(** Search with [max_distance = +inf] on an aligned catalog of [n] items,
    asked for [n + extra] neighbours: the items nearest first, then one
    copy of the last item of the metadata sequence for every slot the index
    could not fill. *)
Lemma search_unbounded (w : World) (image : bytes) (cmt : string)
  (query : Vec) (extra : nat) :
  length (index w) = length (metadata w) ->
  result (query_vector image cmt) w = Returned query ->
  metadata w <> [] \/ extra = 0%nat ->
  exists ranked : list (Q * Item),
    result (search_image image cmt (length (metadata w) + extra) PosInf) w
    = Returned (List.map snd ranked
                ++ repeat (List.last (metadata w) no_item) extra)%list
    /\ Permutation ranked (with_distances query (index w) (metadata w))
    /\ Sorted nearer ranked
    /\ Permutation (List.map snd ranked) (metadata w).
Proof.
  intros Hlen Hq Hpad.
  set (hits := sort_hits (score query (index w))).
  exists (List.map (ranked_item (metadata w)) hits).
  assert (Hperm : Permutation
            (List.map (ranked_item (metadata w)) hits)
            (with_distances query (index w) (metadata w))).
  { rewrite <- (ranked_score query (index w) (metadata w) Hlen).
    apply Permutation_map, sort_hits_perm. }
  split; [|split; [exact Hperm|split]].
  - unfold result at 1. rewrite search_image_run, Hq. simpl.
    rewrite <- Hlen, index_search_padded. fold hits.
    rewrite collect_results_app.
    rewrite collect_results_positions.
    + rewrite collect_results_padding by reflexivity.
      rewrite List.map_map.
      destruct extra as [|extra]; [reflexivity|].
      destruct (metadata w) as [|item md]; [|reflexivity].
      destruct Hpad; congruence.
    + intros h Hh. rewrite <- Hlen.
      apply (score_range query). 
      eapply Permutation_in; [apply sort_hits_perm | exact Hh].
  - apply ranked_sorted, sort_hits_sorted.
  - transitivity
      (List.map snd (with_distances query (index w) (metadata w))).
    + now apply Permutation_map.
    + now rewrite with_distances_items.
Qed.

(** X18: With [k = len(metadata)] on an aligned catalog, Search without a
    distance bound returns the items of the metadata sequence, each once,
    in ascending order of distance. *)
Lemma search_all_sorted (w : World) (image : bytes) (cmt : string)
  (query : Vec) :
  length (index w) = length (metadata w) ->
  result (query_vector image cmt) w = Returned query ->
  exists ranked : list (Q * Item),
    result (search_image image cmt (length (metadata w)) PosInf) w
    = Returned (List.map snd ranked)
    /\ Permutation ranked (with_distances query (index w) (metadata w))
    /\ Sorted nearer ranked
    /\ Permutation (List.map snd ranked) (metadata w).
Proof.
  intros Hlen Hq.
  destruct (search_unbounded w image cmt query 0 Hlen Hq (or_intror eq_refl))
    as (ranked & Hres & Hrest).
  exists ranked. split; [|exact Hrest].
  rewrite Nat.add_0_r in Hres. simpl in Hres.
  now rewrite List.app_nil_r in Hres.
Qed.

(** X19: With a larger [k] the list is longer than the catalog. *)
Lemma search_returns_k (w : World) (image : bytes) (cmt : string)
  (query : Vec) (extra : nat) :
  length (index w) = length (metadata w) ->
  result (query_vector image cmt) w = Returned query ->
  metadata w <> [] ->
  exists results : list Item,
    result (search_image image cmt (length (metadata w) + extra) PosInf) w
    = Returned results
    /\ length results = (length (metadata w) + extra)%nat.
Proof.
  intros Hlen Hq Hne.
  destruct (search_unbounded w image cmt query extra Hlen Hq (or_introl Hne))
    as (ranked & Hres & _ & _ & Hperm).
  eexists. split; [exact Hres|].
  rewrite length_app, repeat_length.
  now rewrite (Permutation_length Hperm).
Qed.

(** X20: Search on an empty catalog: the padded slots are dropped when the
    bound, rounded to float32 as the comparison of line 290 rounds it, is
    below [FLT_MAX], and raise [IndexError] otherwise (so already at
    3.4028234e38, which rounds to [FLT_MAX]). *)
Lemma search_empty_catalog (w : World) (image : bytes) (cmt : string)
  (query : Vec) (k : nat) (max_distance : pyfloat) :
  index w = [] -> metadata w = [] ->
  result (query_vector image cmt) w = Returned query ->
  (1 <= k)%nat ->
  result (search_image image cmt k max_distance) w =
  if float_le FLT_MAX max_distance then Raised IndexError else Returned [].
Proof.
  intros Hi Hm Hq Hk.
  unfold result at 1. rewrite search_image_run, Hq, Hi, Hm. simpl.
  unfold index_search, score. simpl. rewrite List.firstn_nil. simpl.
  rewrite Nat.sub_0_r.
  destruct (float_le FLT_MAX max_distance) eqn:Hle.
  - rewrite collect_results_padding by exact Hle.
    destruct k; [lia | reflexivity].
  - now apply collect_results_unpadded.
Qed.

End Unbounded.

(** ** The handlers on concrete worlds *)

(** The bound of line 290 as a float32: the default 0.4, and two bounds
    next to [FLT_MAX]. *)
Example float32_of_default :
  float32_of (4 # 10) = Finite (13421773 # 33554432).
Proof. vm_compute. reflexivity. Qed.

Example float32_of_near_max :
  float32_of (inject_Z (34028234 * 10 ^ 31)) = Finite FLT_MAX
  /\ float32_of (inject_Z (34028233 * 10 ^ 31))
     = Finite (FLT_MAX - inject_Z (2 ^ 104))
  /\ float32_of (inject_Z (10 ^ 39)) = PosInf
  /\ float_le FLT_MAX (Finite (inject_Z (34028234 * 10 ^ 31))) = true
  /\ float_le FLT_MAX (Finite (inject_Z (34028233 * 10 ^ 31))) = false.
Proof. vm_compute. repeat split. Qed.

Example parse_tags_scenario : parse_tags "casual,summer" = ["casual"; "summer"].
Proof. reflexivity. Qed.

Example parse_tags_blanks : parse_tags " a , ,b,," = ["a"; "b"].
Proof. reflexivity. Qed.

Example combined_text_scenario :
  combined_text "blue denim shirt" ["casual"; "summer"]
  = "blue denim shirt casual summer".
Proof. reflexivity. Qed.

Example py_getitem_negative : py_getitem [1%Z; 2%Z; 3%Z] (-1) = Some 3%Z.
Proof. reflexivity. Qed.

Example py_getitem_empty : py_getitem (@nil Z) (-1) = None.
Proof. reflexivity. Qed.

(** Four stored vectors, six neighbours asked for. *)
Example index_search_pads :
  List.map snd (index_search (H := toy_provider) [5; 1; 5; 3]%Z 2%Z 6)
  = [1; 3; 0; 2; -1; -1]%Z.
Proof. reflexivity. Qed.

(** Deleting the only item and restarting: the index file still holds the
    vector, the metadata file the empty list. *)
Example restart_after_emptying_delete :
  index_file (after (delete_item "a.jpg") one_item_world) = Content [10%Z]
  /\ metadata_file (after (delete_item "a.jpg") one_item_world) = Content []
  /\ index restarted_world = [10%Z]
  /\ metadata restarted_world = [].
Proof. vm_compute. repeat split. Qed.

(** A DeleteItem that fails on such a world leaves the index as it is. *)
Example failed_delete_keeps_index :
  result (delete_item "zzz") restarted_world = Returned (Error "'zzz'")
  /\ index (after (delete_item "zzz") restarted_world) = [10%Z].
Proof. vm_compute. repeat split. Qed.

(** Two items, [k = 2]: both, the nearer first. *)
Example search_two_items :
  result (search_image toy_image "" 2 PosInf) two_item_world
  = Returned [mkItem "a.jpg" "blue" ["casual"; "summer"];
              mkItem "b.jpg" "green wool coat" ["winter"]].
Proof. vm_compute. reflexivity. Qed.

(** C1, as stated, fails: add one item, delete it, restart the server, add
    another item.  The delete left the one-vector index file in place next
    to an empty metadata file, the restart loaded both, and the successful
    AddItem ends with two vectors in the index and one item in the metadata
    sequence. *)
Lemma add_item_on_restarted_world :
  let call := add_item "b.jpg" toy_image "red" "" in
  result call restarted_world = Returned (Message "Item added successfully")
  /\ length (index (after call restarted_world)) = 2%nat
  /\ length (metadata (after call restarted_world)) = 1%nat
  /\ length (index (after call restarted_world))
     <> length (metadata (after call restarted_world)).
Proof. vm_compute. repeat split; discriminate. Qed.

Lemma add_item_appends_in_lockstep_witness :
  result (add_item "a.jpg" toy_image "blue" "casual,summer")
    (@empty_world toy_provider)
  = Returned (Message "Item added successfully")
  /\ length (index one_item_world) = 1%nat
  /\ length (metadata one_item_world) = 1%nat
  /\ length (index one_item_world) = length (metadata one_item_world).
Proof.
  assert (Hok : result (add_item "a.jpg" toy_image "blue" "casual,summer")
                  (@empty_world toy_provider)
                = Returned (Message "Item added successfully"))
    by (vm_compute; reflexivity).
  split; [exact Hok|].
  destruct (add_item_appends_in_lockstep empty_world "a.jpg" toy_image
              "blue" "casual,summer" _ Hok) as (Hi & Hm & Heq).
  split; [exact Hi|]. split; [exact Hm|]. apply Heq. reflexivity.
Defined.

(** C2, as stated, fails: the same filename uploaded a second time.  The
    catalog keeps one entry, now with the new comment; the metadata
    sequence holds two entries for the filename. *)
Lemma add_item_twice_duplicates :
  comments_file one_item_world
  = Content [("a.jpg", Entry (Some "blue") (Some ["casual"; "summer"]))]
  /\ result (add_item "a.jpg" toy_image "red" "") one_item_world
     = Returned (Message "Item added successfully")
  /\ comments_file readded_world
     = Content [("a.jpg", Entry (Some "red") (Some []))]
  /\ metadata readded_world
     = [mkItem "a.jpg" "blue" ["casual"; "summer"]; mkItem "a.jpg" "red" []]
  /\ ~ List.NoDup (List.map filename (metadata readded_world)).
Proof.
  vm_compute. repeat split.
  intros Hnd. inversion Hnd as [|? ? Hnotin _]. apply Hnotin. now left.
Qed.

Lemma add_item_existing_filename_witness :
  exists cat',
    comments_file readded_world = Content cat'
    /\ PyDict.keys cat' = ["a.jpg"]
    /\ PyDict.get "a.jpg" cat' = Some (Entry (Some "red") (Some []))
    /\ metadata readded_world
       = (metadata one_item_world ++ [mkItem "a.jpg" "red" []])%list.
Proof.
  destruct (add_item_existing_filename one_item_world "a.jpg" toy_image
              "red" "" (Message "Item added successfully")
              [("a.jpg", Entry (Some "blue") (Some ["casual"; "summer"]))])
    as (cat' & Hcf & Hkeys & Hget & _ & Hmd);
    try (vm_compute; reflexivity).
  exists cat'. repeat split; assumption.
Defined.

(** C3 at a failing input: one item in the catalog, [k = 2],
    [max_distance = +inf].  The second slot comes back from the index with
    label -1, passes [idx < len(metadata)], and reads [metadata[-1]]: the one
    item is returned twice. *)
Theorem search_one_item_k_two :
  metadata one_item_world = [mkItem "a.jpg" "blue" ["casual"; "summer"]]
  /\ length (index one_item_world) = 1%nat
  /\ result (search_image toy_image "" 2 PosInf) one_item_world
     = Returned [mkItem "a.jpg" "blue" ["casual"; "summer"];
                 mkItem "a.jpg" "blue" ["casual"; "summer"]].
Proof. vm_compute. repeat split. Qed.

(** C4 at a failing input: the empty catalog, [k = 1],
    [max_distance = +inf].  The one slot has label -1 and distance
    [FLT_MAX]; it passes both tests of the filter and [metadata[-1]] raises
    [IndexError] on the empty list.  Under the default bound 0.4 the slot is
    dropped and the list is empty. *)
Theorem search_empty_catalog_unbounded :
  index (@empty_world toy_provider) = []
  /\ metadata (@empty_world toy_provider) = []
  /\ result (search_image toy_image "" 1 PosInf) (@empty_world toy_provider)
     = Raised IndexError
  /\ result (search_image toy_image "" 1 (Finite (4 # 10)))
       (@empty_world toy_provider)
     = Returned [].
Proof. vm_compute. repeat split. Qed.

Lemma search_after_delete_witness :
  result (delete_item "a.jpg") two_item_world
  = Returned (Message "Item deleted successfully")
  /\ result (search_image toy_image "" 3 PosInf)
       (after (delete_item "a.jpg") two_item_world)
     = Returned (repeat (mkItem "b.jpg" "green wool coat" ["winter"]) 3)
  /\ (forall item,
        List.In item (repeat (mkItem "b.jpg" "green wool coat" ["winter"]) 3)
        -> filename item <> "a.jpg").
Proof.
  assert (Hdel : result (delete_item "a.jpg") two_item_world
                 = Returned (Message "Item deleted successfully"))
    by (vm_compute; reflexivity).
  assert (Hsearch : result (search_image toy_image "" 3 PosInf)
                      (after (delete_item "a.jpg") two_item_world)
                    = Returned
                        (repeat (mkItem "b.jpg" "green wool coat" ["winter"])
                           3))
    by (vm_compute; reflexivity).
  split; [exact Hdel|]. split; [exact Hsearch|].
  exact (proj1 (search_after_delete "a.jpg" _ two_item_world toy_image ""
                  3 PosInf _ Hdel Hsearch)).
Defined.

Lemma analyze_outfit_dedup_witness :
  let output := [Seg.mk "shirt, blouse" (97 # 100) "segments/2.jpg"] in
  toy_segment_clothing toy_image = Returned (toy_detections, (400, 300)%Z)
  /\ analyze_outfit toy_uuid4 toy_segment_clothing toy_image = Returned output
  /\ List.NoDup (List.map Seg.category output).
Proof.
  cbv zeta.
  assert (Hseg : toy_segment_clothing toy_image
                 = Returned (toy_detections, (400, 300)%Z))
    by reflexivity.
  assert (Hout : analyze_outfit toy_uuid4 toy_segment_clothing toy_image
                 = Returned [Seg.mk "shirt, blouse" (97 # 100)
                               "segments/2.jpg"])
    by (vm_compute; reflexivity).
  split; [exact Hseg|]. split; [exact Hout|].
  exact (proj1 (analyze_outfit_dedup toy_uuid4 toy_segment_clothing
                  toy_image toy_detections (400, 300)%Z _ Hseg Hout)).
Defined.

(** A box that starts left of the image: the request raises. *)
Example analyze_outfit_empty_crop :
  analyze_outfit toy_uuid4 edge_segment_clothing toy_image = Raised CvError.
Proof. vm_compute. reflexivity. Qed.

Lemma query_embedding_matches_storage_witness :
  image_dir one_item_world !! "a.jpg" = Some toy_image
  /\ result (query_vector toy_image "blue") one_item_world
     = result (process_image_text_pair "a.jpg" "blue") one_item_world
  /\ result (query_vector toy_image "blue") one_item_world
     = spec_embed toy_image (Some "blue")
  /\ result (query_vector toy_image "") one_item_world
     = spec_embed toy_image None.
Proof.
  assert (Himg : image_dir one_item_world !! "a.jpg" = Some toy_image)
    by (vm_compute; reflexivity).
  split; [exact Himg|].
  destruct (query_embedding_matches_storage one_item_world "a.jpg"
              toy_image "blue" Himg) as [Hfused Himage].
  destruct (Hfused ltac:(discriminate)) as [Hsame Hspec].
  repeat split; assumption.
Defined.

(** C10, as stated, fails: delete the only item, restart the server, then
    delete a filename the catalog does not have.  The first delete left the
    one-vector index file in place, the restart loaded it next to an empty
    metadata file, and the second delete ends at [del comments_data] with
    the metadata sequence empty and the in-memory index still holding the
    vector. *)
Lemma delete_item_unknown_on_restarted_world :
  let call := delete_item "zzz" in
  metadata restarted_world = []
  /\ index restarted_world = [10%Z]
  /\ result call restarted_world = Returned (Error "'zzz'")
  /\ metadata (after call restarted_world) = []
  /\ index (after call restarted_world) = [10%Z]
  /\ index (after call restarted_world) <> [].
Proof. vm_compute. repeat split; discriminate. Qed.

Lemma empty_result_keeps_index_file_witness :
  metadata (after (delete_item "a.jpg") one_item_world) = []
  /\ index_file (after (delete_item "a.jpg") one_item_world)
     = Content [10%Z]
  /\ index (after (delete_item "a.jpg") one_item_world) = []
  /\ metadata (after rebuild_index orphan_world) = []
  /\ index (after rebuild_index orphan_world) = []
  /\ index_file (after rebuild_index orphan_world) = Content [10%Z]
  /\ metadata_file (after rebuild_index orphan_world)
     = Content [mkItem "a.jpg" "blue" ["casual"; "summer"]].
Proof.
  destruct (empty_result_keeps_index_file "a.jpg" one_item_world)
    as [Hdelete _].
  destruct (empty_result_keeps_index_file "a.jpg" orphan_world)
    as [_ Hrebuild].
  assert (Hmd : metadata (after (delete_item "a.jpg") one_item_world) = [])
    by (vm_compute; reflexivity).
  assert (Hmd' : metadata (after rebuild_index orphan_world) = [])
    by (vm_compute; reflexivity).
  destruct (Hdelete Hmd) as (Hfile & Hindex & _).
  destruct (Hrebuild Hmd') as (Hi & Hif & Hmf).
  split; [exact Hmd|]. split; [exact Hfile|].
  split; [apply (Hindex "Item deleted successfully"); vm_compute; reflexivity|].
  split; [exact Hmd'|]. split; [exact Hi|]. split; [exact Hif | exact Hmf].
Defined.

(** ** Listing the catalog *)

Section ListingFacts.

Context `{Provider}.

Lemma has_image_true (d : gmap string bytes) (e : string * CatalogValue) :
  has_image d e = true <-> exists image, d !! fst e = Some image.
Proof.
  unfold has_image. rewrite bool_decide_eq_true. reflexivity.
Qed.

Lemma items_loop_run (entries : list (string * CatalogValue))
  (items : list Listed.t) (w : World) :
  items_loop entries items w =
  (w, Returned (items ++ List.map listed_row
                            (List.filter (has_image (image_dir w)) entries))
                 %list).
Proof.
  revert items. induction entries as [|[fname data] rest IH]; intros items.
  - simpl. now rewrite List.app_nil_r.
  - simpl. unfold bind, gets. simpl. unfold has_image at 1. simpl.
    destruct (image_dir w !! fname) as [image|] eqn:E.
    + rewrite bool_decide_eq_true_2 by eauto.
      unfold listed_row at 1. simpl.
      destruct (entry_fields data) as [cmt tgs]. simpl.
      rewrite IH, <- List.app_assoc. reflexivity.
    + rewrite bool_decide_eq_false_2 by (intros [? ?]; discriminate).
      apply IH.
Qed.

Lemma get_all_items_run (w : World) :
  get_all_items w =
  (w, match comments_file w with
      | Missing => Returned []
      | Corrupt => Raised (JSONDecodeError COMMENTS_FILE)
      | Content comments_data =>
          Returned (List.map listed_row
                      (List.filter (has_image (image_dir w)) comments_data))
      end).
Proof.
  unfold get_all_items, bind, gets. simpl.
  destruct (comments_file w) as [| |c]; simpl; try reflexivity.
  now rewrite items_loop_run.
Qed.


(** X1: GET /items changes nothing; a missing comments file gives the empty
    list, and a comments file that is not valid JSON raises the decode
    error. *)
Theorem get_all_items_read_only (w : World) :
  after get_all_items w = w
  /\ (comments_file w = Missing -> result get_all_items w = Returned [])
  /\ (comments_file w = Corrupt ->
      result get_all_items w = Raised (JSONDecodeError COMMENTS_FILE)).
Proof.
  unfold after, result. rewrite get_all_items_run. simpl.
  split; [reflexivity|]. split; now intros ->.
Qed.

(** X2: GET /items lists exactly the catalog entries whose image file exists,
    in catalog order: each row has the URL [/images/<filename>] and the
    comment and tags of its entry (a legacy string entry: that string and no
    tags), and every entry with an image has its row. *)
Theorem get_all_items_lists_live_entries (w : World)
  (comments_data : PyDict.t CatalogValue) :
  comments_file w = Content comments_data ->
  exists rows : list Listed.t,
    result get_all_items w = Returned rows
    /\ List.map listed_item rows = live_entries (image_dir w) comments_data
    /\ (forall row, List.In row rows ->
          Listed.image_url row = "/images/" ++ Listed.filename row
          /\ is_Some (image_dir w !! Listed.filename row)
          /\ exists data,
               List.In (Listed.filename row, data) comments_data
               /\ entry_fields data
                  = (Listed.comment row, Listed.tags row))
    /\ (forall fname data,
          List.In (fname, data) comments_data ->
          is_Some (image_dir w !! fname) ->
          List.In (listed_row (fname, data)) rows).
Proof.
  intros Hcf. unfold result. rewrite get_all_items_run, Hcf. simpl.
  eexists. split; [reflexivity|]. split; [|split].
  - unfold live_entries. now rewrite List.map_map.
  - intros row Hrow.
    apply List.in_map_iff in Hrow as ([fname data] & <- & Hin).
    apply List.filter_In in Hin as [Hin Himg].
    apply bool_decide_eq_true in Himg. simpl in *.
    split; [reflexivity|]. split; [exact Himg|].
    exists data. split; [exact Hin|]. now destruct (entry_fields data).
  - intros fname data Hin Himg.
    apply List.in_map, List.filter_In. split; [exact Hin|].
    now apply bool_decide_eq_true.
Qed.

Lemma set_in {V} (k : string) (v : V) (d : PyDict.t V) :
  List.In (k, v) (PyDict.set k v d).
Proof.
  induction d as [|[k' v'] r IH]; simpl; [now left|].
  destruct (String.eqb k' k); [now left | now right].
Qed.

(** The files a successful AddItem leaves behind. *)
Lemma add_item_success_world (w : World) (fname : string) (image : bytes)
  (cmt tags_field : string) (r : Response) :
  result (add_item fname image cmt tags_field) w = Returned r ->
  let w' := after (add_item fname image cmt tags_field) w in
  comments_file w'
  = Content (PyDict.set fname
               (Entry (Some cmt) (Some (parse_tags tags_field)))
               (match comments_file w with Content c => c | _ => [] end))
  /\ image_dir w' = <[fname := image]> (image_dir w)
  /\ index_file w' = Content (index w')
  /\ metadata_file w' = Content (metadata w').
Proof.
  unfold result, after. rewrite add_item_run. cbv zeta.
  destruct (comments_file w); try discriminate;
    (destruct (clip_forward image _) as [[ie te]|]; simpl;
     [intros _; repeat split; reflexivity | discriminate]).
Qed.

(** X3: After a successful AddItem, GET /items returns a row for the upload:
    its filename, [/images/<filename>], the comment as sent and the tags
    as parsed. *)
Theorem add_item_then_listed (w : World) (fname : string) (image : bytes)
  (cmt tags_field : string) (r : Response) :
  result (add_item fname image cmt tags_field) w = Returned r ->
  exists rows : list Listed.t,
    result get_all_items (after (add_item fname image cmt tags_field) w)
    = Returned rows
    /\ List.In (Listed.mk fname ("/images/" ++ fname) cmt
                  (parse_tags tags_field)) rows.
Proof.
  intros Hok.
  destruct (add_item_success_world w fname image cmt tags_field r Hok)
    as (Hcf & Hdir & _).
  unfold result. rewrite get_all_items_run, Hcf, Hdir. simpl.
  eexists. split; [reflexivity|].
  apply List.in_map_iff.
  exists (fname, Entry (Some cmt) (Some (parse_tags tags_field))).
  split; [reflexivity|].
  apply List.filter_In. split; [apply set_in|].
  apply bool_decide_eq_true. simpl. rewrite lookup_insert_eq. eauto.
Qed.

Lemma delete_item_image_gone (fname : string) (w : World) :
  image_dir (after (delete_item fname) w) = delete fname (image_dir w).
Proof.
  rewrite delete_item_after. unfold after.
  rewrite delete_item_body_run. cbv zeta.
  destruct (comments_file w) as [| |c]; simpl; trivial.
  destruct (PyDict.mem fname c); simpl; trivial.
  destruct (List.filter (keep_other fname) (metadata w)); simpl; trivial.
  destruct (result _ _); reflexivity.
Qed.

(** X4: After DeleteItem(filename), whether it reported success or an error,
    GET /items has no row for that filename: the image file is removed
    first, and rows are only made for entries whose image exists. *)
Theorem delete_item_then_unlisted (w : World) (fname : string)
  (rows : list Listed.t) :
  result get_all_items (after (delete_item fname) w) = Returned rows ->
  forall row, List.In row rows -> Listed.filename row <> fname.
Proof.
  unfold result. rewrite get_all_items_run, delete_item_image_gone. simpl.
  destruct (comments_file _) as [| |c]; try discriminate.
  - intros [= <-] row [].
  - intros [= <-] row Hrow.
    apply List.in_map_iff in Hrow as ([k data] & <- & Hin).
    apply List.filter_In in Hin as [_ Himg].
    apply bool_decide_eq_true in Himg. simpl in *.
    intros ->. rewrite lookup_delete_eq in Himg. now destruct Himg.
Qed.

End ListingFacts.

(** ** What RebuildIndex builds *)

Section RebuildFacts.

Context `{Provider}.

Lemma embeds_frame (w1 w2 : World) (item : Item) (v : Vec) :
  image_dir w1 = image_dir w2 -> embeds w1 item v -> embeds w2 item v.
Proof.
  unfold embeds, embed_item. intros E Hv.
  now rewrite <- (process_image_text_pair_frame _ _ w1 w2 E).
Qed.

Lemma live_entries_cons_live (d : gmap string bytes) (fname : string)
  (data : CatalogValue) (rest : PyDict.t CatalogValue) (image : bytes) :
  d !! fname = Some image ->
  live_entries d ((fname, data) :: rest)
  = mkItem fname (fst (entry_fields data)) (snd (entry_fields data))
    :: live_entries d rest.
Proof.
  intros E. unfold live_entries. simpl. unfold has_image at 1. simpl.
  rewrite bool_decide_eq_true_2 by eauto. reflexivity.
Qed.

Lemma live_entries_cons_dead (d : gmap string bytes) (fname : string)
  (data : CatalogValue) (rest : PyDict.t CatalogValue) :
  d !! fname = None ->
  live_entries d ((fname, data) :: rest) = live_entries d rest.
Proof.
  intros E. unfold live_entries. simpl. unfold has_image at 1. simpl.
  rewrite bool_decide_eq_false_2; [reflexivity|].
  rewrite E. now intros [? ?].
Qed.

(** What the rebuild loop has accumulated when it finishes. *)
Lemma rebuild_loop_result (entries : list (string * CatalogValue))
  (embeddings : list Vec) (new_metadata : list Item) (w : World)
  (embeddings' : list Vec) (new_metadata' : list Item) :
  result (rebuild_loop entries embeddings new_metadata) w
  = Returned (embeddings', new_metadata') ->
  new_metadata'
  = (new_metadata ++ live_entries (image_dir w) entries)%list
  /\ exists vs,
       embeddings' = (embeddings ++ vs)%list
       /\ Forall2 (embeds w) (live_entries (image_dir w) entries) vs.
Proof.
  unfold result. revert embeddings new_metadata.
  induction entries as [|[fname data] rest IH]; intros embs md; simpl.
  - intros [= <- <-]. split; [now rewrite List.app_nil_r|].
    exists []. split; [now rewrite List.app_nil_r | constructor].
  - destruct (entry_fields data) as [cmt tgs] eqn:Ef.
    unfold bind, gets. simpl.
    destruct (image_dir w !! fname) as [image|] eqn:E.
    + rewrite process_image_text_pair_run, E.
      destruct (clip_forward image _) as [[ie te]|] eqn:Eclip;
        [|discriminate].
      intros Hrest. apply IH in Hrest as (Hmd & vs & Hembs & Hall).
      rewrite (live_entries_cons_live _ _ _ _ _ E), Ef. simpl.
      split; [now rewrite Hmd, <- List.app_assoc|].
      eexists (_ :: vs). split; [now rewrite Hembs, <- List.app_assoc|].
      constructor; [|exact Hall].
      unfold embeds, embed_item, result. simpl.
      now rewrite process_image_text_pair_run, E, Eclip.
    + rewrite (live_entries_cons_dead _ _ _ _ E). apply IH.
Qed.

Lemma rebuild_index_keeps_catalog (w : World) :
  comments_file (after rebuild_index w) = comments_file w
  /\ image_dir (after rebuild_index w) = image_dir w.
Proof.
  unfold after. rewrite rebuild_index_run.
  destruct (comments_file w) as [| |c] eqn:Ecf; simpl; auto.
  destruct (result _ _) as [e|[[|emb embs] md]]; simpl; auto.
Qed.

Lemma rebuild_index_built (w : World) (r : Response)
  (comments_data : PyDict.t CatalogValue) :
  comments_file w = Content comments_data ->
  result rebuild_index w = Returned r ->
  let w' := after rebuild_index w in
  metadata w' = live_entries (image_dir w) comments_data
  /\ aligned w'
  /\ (metadata w' <> [] -> persisted w').
Proof.
  intros Hcf. unfold result at 1, after, aligned, persisted.
  rewrite rebuild_index_run, Hcf.
  destruct (result _ _) as [e|[embs md]] eqn:Eloop; simpl; [discriminate|].
  intros _.
  apply rebuild_loop_result in Eloop as (Hmd & vs & Hembs & Hall).
  simpl in Hmd, Hembs, Hall. subst md embs.
  assert (Hall' : forall w', image_dir w' = image_dir w ->
            Forall2 (embeds w') (live_entries (image_dir w) comments_data) vs).
  { intros w' E. eapply Forall2_impl; [exact Hall|].
    intros item v. apply embeds_frame. now rewrite E. }
  destruct vs as [|v vs]; simpl.
  - apply Forall2_length in Hall.
    destruct (live_entries _ _); [|discriminate].
    split; [reflexivity|]. split; [constructor|]. congruence.
  - split; [reflexivity|]. split; [now apply Hall'|].
    intros _. split; reflexivity.
Qed.

(** X5: After a RebuildIndex that returned, the metadata sequence is the list
    of catalog entries whose image file exists, in catalog order, and the
    index holds at each position the embedding of the item at that
    position; unless that list is empty, both are what the two files
    hold. *)
Theorem rebuild_index_builds_live_entries (w : World) (r : Response)
  (comments_data : PyDict.t CatalogValue) :
  comments_file w = Content comments_data ->
  result rebuild_index w = Returned r ->
  let w' := after rebuild_index w in
  metadata w' = live_entries (image_dir w) comments_data
  /\ aligned w'
  /\ (metadata w' <> [] -> persisted w').
Proof. apply rebuild_index_built. Qed.

(** X6: A RebuildIndex that returned agrees with GET /items: the metadata
    sequence is the list of rows, without their URLs. *)
Theorem rebuild_index_matches_listing (w : World) (r : Response) :
  result rebuild_index w = Returned r ->
  exists rows : list Listed.t,
    result get_all_items (after rebuild_index w) = Returned rows
    /\ List.map listed_item rows = metadata (after rebuild_index w).
Proof.
  intros Hok.
  destruct (rebuild_index_keeps_catalog w) as (Hcf & Hdir).
  unfold result at 1. rewrite get_all_items_run, Hcf, Hdir. simpl.
  destruct (comments_file w) as [| |c] eqn:Ecf.
  - exists []. split; [reflexivity|].
    unfold after. rewrite rebuild_index_run, Ecf. reflexivity.
  - revert Hok. unfold result. rewrite rebuild_index_run, Ecf. discriminate.
  - eexists. split; [reflexivity|].
    destruct (rebuild_index_built w r c Ecf Hok) as (-> & _).
    unfold live_entries. now rewrite List.map_map.
Qed.

Lemma live_entries_filenames (d : gmap string bytes)
  (comments_data : PyDict.t CatalogValue) :
  List.map filename (live_entries d comments_data)
  = List.map fst (List.filter (has_image d) comments_data).
Proof. unfold live_entries. now rewrite List.map_map. Qed.

Lemma nodup_filter_keys {V} (f : string * V -> bool) (d : PyDict.t V) :
  List.NoDup (PyDict.keys d) ->
  List.NoDup (List.map fst (List.filter f d)).
Proof.
  unfold PyDict.keys. induction d as [|e r IH]; simpl; intros Hnd.
  - constructor.
  - inversion Hnd as [|? ? Hnotin Hnd']; subst.
    destruct (f e); simpl; [|now apply IH].
    constructor; [|now apply IH].
    intros Hin. apply Hnotin.
    apply List.in_map_iff in Hin as (e' & He' & Hin).
    apply List.filter_In in Hin as [Hin _].
    rewrite <- He'. now apply List.in_map.
Qed.

(** X7: Whatever the metadata sequence held before, after RebuildIndex no
    filename occurs in it twice (the keys of the catalog being distinct, as
    the keys of a parsed JSON object are), and every item in it has its
    image file. *)
Theorem rebuild_index_dedups (w : World)
  (comments_data : PyDict.t CatalogValue) :
  comments_file w = Content comments_data ->
  List.NoDup (PyDict.keys comments_data) ->
  List.NoDup (List.map filename (metadata (after rebuild_index w)))
  /\ forall item, List.In item (metadata (after rebuild_index w)) ->
       is_Some (image_dir w !! filename item).
Proof.
  intros Hcf Hnd.
  destruct (result rebuild_index w) as [e|r] eqn:Eres.
  - assert (Hmd : metadata (after rebuild_index w) = []).
    { revert Eres. unfold result, after. rewrite rebuild_index_run, Hcf.
      destruct (result _ _) as [e'|[[|emb embs] md]]; simpl;
        [reflexivity | discriminate | discriminate]. }
    rewrite Hmd. split; [constructor | intros item []].
  - destruct (rebuild_index_built w r comments_data Hcf Eres) as (-> & _).
    split.
    + rewrite live_entries_filenames. now apply nodup_filter_keys.
    + intros item Hin. unfold live_entries in Hin.
      apply List.in_map_iff in Hin as (e & <- & Hin).
      apply List.filter_In in Hin as [_ Himg].
      now apply bool_decide_eq_true in Himg.
Qed.

(** X8: A RebuildIndex that raises (a catalog file that is not valid JSON, an
    image that cannot be decoded) has already emptied both globals, and
    has written no file. *)
Theorem rebuild_index_failure_empties (w : World) (e : exn) :
  result rebuild_index w = Raised e ->
  after rebuild_index w = reset_globals w.
Proof.
  unfold result, after. rewrite rebuild_index_run.
  destruct (comments_file w) as [| |c]; simpl; try discriminate;
    [reflexivity|].
  destruct (result _ _) as [e'|[[|emb embs] md]]; simpl;
    [reflexivity | discriminate | discriminate].
Qed.

End RebuildFacts.

(** ** What DeleteItem leaves behind *)

Section DeleteFacts.

Context `{Provider}.

Lemma mapM_embed_result (md : list Item) (w : World) (vs : list Vec) :
  result (mapM embed_item md) w = Returned vs -> Forall2 (embeds w) md vs.
Proof.
  unfold result. revert vs.
  induction md as [|item md IH]; simpl; intros vs.
  - intros [= <-]. constructor.
  - unfold bind.
    pose proof (process_image_text_pair_state (filename item)
                  (combined_text (comment item) (tags item)) w) as Hst.
    unfold after in Hst. fold (embed_item item) in Hst.
    destruct (embed_item item w) as [w1 [e|v]] eqn:Ev; simpl in Hst;
      subst w1; [discriminate|].
    destruct (mapM embed_item md w) as [w2 [e|bs]]; simpl in *;
      [discriminate|].
    intros [= <-]. constructor; [|now apply IH].
    unfold embeds, result. now rewrite Ev.
Qed.

Lemma mapM_embed_raises (md : list Item) (w : World) (item : Item) :
  List.In item md ->
  image_dir w !! filename item = None ->
  exists e, result (mapM embed_item md) w = Raised e.
Proof.
  unfold result. intros Hin Hmiss.
  induction md as [|item' md IH]; [destruct Hin|]. simpl. unfold bind.
  pose proof (process_image_text_pair_state (filename item')
                (combined_text (comment item') (tags item')) w) as Hst.
  unfold after in Hst. fold (embed_item item') in Hst.
  destruct (embed_item item' w) as [w1 [e|v]] eqn:Ev; simpl in Hst; subst w1;
    [eauto|].
  destruct Hin as [->|Hin].
  - unfold embed_item in Ev.
    rewrite process_image_text_pair_run, Hmiss in Ev. discriminate.
  - destruct (IH Hin) as (e & He).
    destruct (mapM embed_item md w) as [w2 [e'|bs]]; simpl in *;
      [eauto | discriminate].
Qed.

(** X10: A DeleteItem that reported success has removed the image file, the
    catalog entry and every metadata entry of the filename, has kept the
    other metadata entries in their order, and has re-embedded them: the
    index holds at each position the embedding of the item at that
    position.  The metadata file holds the new sequence; the index file
    holds the new index unless the sequence is empty. *)
Theorem delete_item_realigns (fname text : string) (w : World)
  (comments_data : PyDict.t CatalogValue) :
  comments_file w = Content comments_data ->
  result (delete_item fname) w = Returned (Message text) ->
  let w' := after (delete_item fname) w in
  image_dir w' = delete fname (image_dir w)
  /\ comments_file w' = Content (PyDict.remove fname comments_data)
  /\ metadata w' = List.filter (keep_other fname) (metadata w)
  /\ aligned w'
  /\ metadata_file w' = Content (metadata w')
  /\ (metadata w' <> [] -> index_file w' = Content (index w')).
Proof.
  intros Hcf Hok. apply delete_item_success in Hok. revert Hok.
  cbv zeta. rewrite delete_item_after. unfold result at 1, after, aligned.
  rewrite delete_item_body_run. cbv zeta. rewrite Hcf.
  destruct (PyDict.mem fname comments_data); simpl; [|discriminate].
  destruct (List.filter (keep_other fname) (metadata w)) as [|item md];
    simpl.
  - intros _. repeat split; trivial; try constructor; congruence.
  - destruct (result _ _) as [e|embs] eqn:Emap; simpl; [discriminate|].
    intros _. split; [reflexivity|]. split; [reflexivity|].
    split; [reflexivity|]. split; [|split; trivial].
    change (bind (embed_item item) _) with (mapM embed_item (item :: md))
      in Emap.
    apply mapM_embed_result in Emap.
    eapply Forall2_impl; [exact Emap|].
    intros it v. now apply embeds_frame.
Qed.

(** X11: A DeleteItem that cannot read the catalog or does not find the
    filename in it reports an error, and by then has removed the image
    file: that is its only effect. *)
Theorem delete_item_fails_after_removing_image (fname : string) (w : World) :
  match comments_file w with
  | Content comments_data => PyDict.mem fname comments_data = false
  | _ => True
  end ->
  after (delete_item fname) w
  = set_image_dir (delete fname (image_dir w)) w
  /\ result (delete_item fname) w
     = Returned (Error (exn_str
         match comments_file w with
         | Missing => FileNotFoundError COMMENTS_FILE
         | Corrupt => JSONDecodeError COMMENTS_FILE
         | Content _ => KeyError fname
         end)).
Proof.
  unfold result, after, delete_item, catch.
  rewrite delete_item_body_run. cbv zeta.
  destruct (comments_file w) as [| |c]; simpl; auto.
  intros ->. simpl. auto.
Qed.

(** X12: A DeleteItem that removes its entries but then cannot re-embed a
    remaining item, because that item's image file is missing, reports an
    error and leaves the in-memory index empty beside a non-empty metadata
    sequence; the metadata file is already rewritten, the index file is
    not. *)
Theorem delete_item_reembedding_fails (fname : string) (w : World)
  (comments_data : PyDict.t CatalogValue) (item : Item) :
  comments_file w = Content comments_data ->
  PyDict.mem fname comments_data = true ->
  List.In item (metadata w) ->
  filename item <> fname ->
  image_dir w !! filename item = None ->
  let w' := after (delete_item fname) w in
  (exists msg, result (delete_item fname) w = Returned (Error msg))
  /\ index w' = []
  /\ metadata w' = List.filter (keep_other fname) (metadata w)
  /\ List.In item (metadata w')
  /\ metadata_file w' = Content (metadata w')
  /\ index_file w' = index_file w.
Proof.
  intros Hcf Hmem Hin Hne Hmiss. cbv zeta.
  assert (Hkeep : List.In item (List.filter (keep_other fname) (metadata w))).
  { apply List.filter_In. split; [exact Hin|]. unfold keep_other.
    destruct (String.eqb_spec (filename item) fname); [congruence|reflexivity]. }
  unfold result, after, delete_item, catch.
  rewrite delete_item_body_run. cbv zeta. rewrite Hcf, Hmem.
  destruct (List.filter (keep_other fname) (metadata w)) as [|item' md]
    eqn:Emd; [destruct Hkeep|].
  set (w2 := mkWorld _ _ _ _ _ _).
  destruct (mapM_embed_raises (item' :: md) w2 item Hkeep) as (e & He).
  { subst w2. simpl. rewrite lookup_delete_ne by congruence. exact Hmiss. }
  rewrite He. simpl. repeat split; eauto.
Qed.

End DeleteFacts.

(** ** Restarting the server *)

Section Startup.

Context `{Provider}.

Lemma startup_run (w : World) :
  startup w =
  match index_file w with
  | Missing => (reset_globals w, Returned tt)
  | Corrupt => (reset_globals w, Raised (ReadIndexError INDEX_PATH))
  | Content i =>
      match metadata_file w with
      | Missing => (set_index i (reset_globals w),
                    Raised (FileNotFoundError METADATA_PATH))
      | Corrupt => (set_index i (reset_globals w),
                    Raised (JSONDecodeError METADATA_PATH))
      | Content md =>
          (mkWorld (image_dir w) (comments_file w) (index_file w)
             (metadata_file w) i md, Returned tt)
      end
  end.
Proof.
  unfold startup, bind, gets, modify. simpl.
  destruct (index_file w) as [| |i] eqn:Ei; simpl; try reflexivity.
  destruct (metadata_file w) as [| |md] eqn:Em; simpl; try reflexivity.
  unfold set_metadata, set_index. simpl. now rewrite Ei, Em.
Qed.

Lemma startup_persisted (w : World) :
  persisted w ->
  result startup w = Returned tt /\ after startup w = w.
Proof.
  intros [Hi Hm]. unfold result, after. rewrite startup_run, Hi, Hm. simpl.
  split; [reflexivity|]. destruct w; simpl in *. now rewrite Hi, Hm.
Qed.

(** X13: Everything a successful AddItem did survives a restart. *)
Theorem restart_after_add_item (w : World) (fname : string) (image : bytes)
  (cmt tags_field : string) (r : Response) :
  result (add_item fname image cmt tags_field) w = Returned r ->
  let w' := after (add_item fname image cmt tags_field) w in
  result startup w' = Returned tt /\ after startup w' = w'.
Proof.
  intros Hok.
  destruct (add_item_success_world w fname image cmt tags_field r Hok)
    as (_ & _ & Hi & Hm).
  apply startup_persisted. split; assumption.
Qed.

(** X14: Start-up looks at the metadata file only when the index file exists:
    without an index file both globals start empty whatever the metadata
    file holds; with an index file but no metadata file, start-up raises
    after loading the index. *)
Theorem startup_without_a_file (w : World) :
  (index_file w = Missing ->
   result startup w = Returned tt
   /\ index (after startup w) = [] /\ metadata (after startup w) = [])
  /\ (forall i, index_file w = Content i -> metadata_file w = Missing ->
      result startup w = Raised (FileNotFoundError METADATA_PATH)
      /\ index (after startup w) = i /\ metadata (after startup w) = []).
Proof.
  unfold result, after. rewrite startup_run. split.
  - intros ->. auto.
  - intros i -> ->. auto.
Qed.

End Startup.

(** ** Search under a distance bound *)

Section Bounded.

Context `{Provider}.

Lemma in_firstn {A} (k : nat) (l : list A) (x : A) :
  List.In x (firstn k l) -> List.In x l.
Proof.
  intros Hin. rewrite <- (List.firstn_skipn k l).
  apply List.in_or_app. now left.
Qed.

Lemma index_search_length (xs : list Vec) (query : Vec) (k : nat) :
  length (index_search xs query k) = k.
Proof.
  unfold index_search. rewrite length_app, repeat_length.
  pose proof (List.firstn_le_length k (sort_hits (score query xs))). lia.
Qed.

Lemma collect_results_length (md : list Item) (max_distance : pyfloat)
  (hits : list Hit) (w : World) (results : list Item) :
  result (collect_results md max_distance hits) w = Returned results ->
  (length results <= length hits)%nat.
Proof.
  unfold result. revert results.
  induction hits as [|[d idx] rest IH]; intros results.
  - simpl. intros [= <-]. simpl. lia.
  - rewrite collect_results_cons.
    destruct (float_le d max_distance && _).
    + destruct (py_getitem md idx); [|discriminate].
      destruct (collect_results md max_distance rest w) as [w' [e|items]];
        simpl in *; [discriminate|].
      intros [= <-]. simpl. specialize (IH items eq_refl). lia.
    + intros Hr. specialize (IH results Hr). simpl. lia.
Qed.

(** The comprehension over hits that all carry a position of the metadata
    sequence: the items of the hits within the bound, in order. *)
Lemma collect_results_filter (md : list Item) (max_distance : pyfloat)
  (hits : list Hit) (w : World) :
  (forall h, List.In h hits -> (0 <= snd h < Z.of_nat (length md))%Z) ->
  result (collect_results md max_distance hits) w
  = Returned (List.map snd
                (List.filter (within max_distance)
                   (List.map (ranked_item md) hits))).
Proof.
  unfold result. induction hits as [|[d idx] rest IH]; intros Hrange.
  - reflexivity.
  - assert (Hidx : (0 <= idx < Z.of_nat (length md))%Z)
      by (apply (Hrange (d, idx)); now left).
    specialize (IH (fun h Hh => Hrange h (or_intror Hh))).
    rewrite collect_results_cons. simpl. unfold within at 1. simpl.
    destruct (float_le d max_distance); simpl; [|exact IH].
    destruct (Z.ltb_spec idx (Z.of_nat (length md))); [|lia].
    rewrite (py_getitem_position md idx no_item Hidx).
    destruct (collect_results md max_distance rest w) as [w' [e|items]];
      simpl in IH |- *; [discriminate|].
    now injection IH as ->.
Qed.

(** The comprehension over hits that carry a position of the index, on any
    metadata sequence: positions past its end are skipped, the others
    read. *)
Lemma collect_results_returns (md : list Item) (max_distance : pyfloat)
  (hits : list Hit) (w : World) :
  (forall h, List.In h hits -> (0 <= snd h)%Z) ->
  exists results, result (collect_results md max_distance hits) w
                  = Returned results.
Proof.
  unfold result. induction hits as [|[d idx] rest IH]; intros Hrange.
  - simpl. eauto.
  - assert (Hidx : (0 <= idx)%Z) by (apply (Hrange (d, idx)); now left).
    destruct (IH (fun h Hh => Hrange h (or_intror Hh))) as (items & Hitems).
    rewrite collect_results_cons.
    destruct (float_le d max_distance); simpl; [|eauto].
    destruct (Z.ltb_spec idx (Z.of_nat (length md))); [|eauto].
    rewrite (py_getitem_position md idx no_item) by lia.
    destruct (collect_results md max_distance rest w) as [w' [e|items']];
      simpl in *; [discriminate | eauto].
Qed.

Lemma sorted_hits_range (query : Vec) (xs : list Vec) (k : nat) (h : Hit) :
  List.In h (firstn k (sort_hits (score query xs))) ->
  (0 <= snd h < Z.of_nat (length xs))%Z.
Proof.
  intros Hin. apply (score_range query).
  eapply Permutation_in; [apply sort_hits_perm|].
  eapply in_firstn, Hin.
Qed.

(** X15: Under a bound that, rounded to float32 as the comparison of line 290
    rounds it, is below [FLT_MAX] (the default 0.4 is one), Search raises
    no [IndexError], whatever the lengths of the index and the metadata
    sequence: once the query is embedded it returns a list. *)
Theorem search_bounded_returns (w : World) (image : bytes) (cmt : string)
  (query : Vec) (k : nat) (max_distance : pyfloat) :
  float_le FLT_MAX max_distance = false ->
  result (query_vector image cmt) w = Returned query ->
  exists results,
    result (search_image image cmt k max_distance) w = Returned results.
Proof.
  intros Hle Hq. unfold result at 1. rewrite search_image_run, Hq. simpl.
  unfold index_search. rewrite collect_results_app.
  destruct (collect_results_returns (metadata w) max_distance
              (firstn k (sort_hits (score query (index w)))) w)
    as (items & ->).
  { intros h Hh. now apply sorted_hits_range in Hh. }
  rewrite collect_results_unpadded by exact Hle. eauto.
Qed.

(** X16: Search never returns more than [k] items. *)
Theorem search_at_most_k (w : World) (image : bytes) (cmt : string)
  (k : nat) (max_distance : pyfloat) (results : list Item) :
  result (search_image image cmt k max_distance) w = Returned results ->
  (length results <= k)%nat.
Proof.
  unfold result at 1. rewrite search_image_run. simpl.
  destruct (result (query_vector image cmt) w) as [e|q]; [discriminate|].
  intros Hr. apply collect_results_length in Hr.
  now rewrite index_search_length in Hr.
Qed.

(** X17: On a catalog with as many vectors as items, under a bound that,
    rounded to float32, is below [FLT_MAX]: there is a ranking of the items
    by distance to the query, nearest first, such that Search returns those
    of its first [k] whose distance is within the (rounded) bound, in that
    order. *)
Theorem search_bounded_ranked (w : World) (image : bytes) (cmt : string)
  (query : Vec) (k : nat) (max_distance : pyfloat) :
  length (index w) = length (metadata w) ->
  float_le FLT_MAX max_distance = false ->
  result (query_vector image cmt) w = Returned query ->
  exists ranked : list (Q * Item),
    Permutation ranked (with_distances query (index w) (metadata w))
    /\ Sorted nearer ranked
    /\ result (search_image image cmt k max_distance) w
       = Returned (List.map snd
                     (List.filter (within max_distance) (firstn k ranked))).
Proof.
  intros Hlen Hle Hq.
  set (hits := sort_hits (score query (index w))).
  exists (List.map (ranked_item (metadata w)) hits).
  split; [|split].
  - rewrite <- (ranked_score query (index w) (metadata w) Hlen).
    apply Permutation_map, sort_hits_perm.
  - apply ranked_sorted, sort_hits_sorted.
  - unfold result at 1. rewrite search_image_run, Hq. simpl.
    unfold index_search. fold hits. rewrite collect_results_app.
    rewrite collect_results_filter.
    + rewrite collect_results_unpadded by exact Hle.
      now rewrite List.app_nil_r, List.firstn_map.
    + intros h Hh. rewrite <- Hlen. now apply sorted_hits_range in Hh.
Qed.

End Bounded.

(** ** The segment files of AnalyzeOutfit *)

Section OutfitSegments.

Variable uuid4 : nat -> string.

Lemma track_segments_ok (shape : Shape) (seen : list Det.t)
  (st st' : Tracker) (comp : Det.t) :
  track uuid4 shape st comp = Returned st' ->
  segments_ok uuid4 shape seen st ->
  segments_ok uuid4 shape (seen ++ [comp]) st'.
Proof.
  intros Htrack [Hentry Hcalls Hnames Hpix].
  destruct (track_returned _ _ _ _ _ Htrack) as [(Ec & Hne & ->)|(Ec & ->)].
  - unfold enter.
    split; cbn [category_tracker uuid_calls segments_written].
    + intros k g Hget.
      destruct (string_dec (Det.category comp) k) as [<-|Hk].
      * rewrite PyDictFacts.get_set_same in Hget. injection Hget as <-.
        exists comp. simpl. repeat split.
        -- apply List.in_or_app. right. now left.
        -- apply List.in_or_app. right. now left.
      * rewrite PyDictFacts.get_set_other in Hget by assumption.
        destruct (Hentry _ _ Hget) as (d & Hd & Hc & Hq & Hw).
        exists d. repeat split; trivial; apply List.in_or_app; now left.
    + lia.
    + rewrite List.map_app, Hnames.
      replace (S (uuid_calls st) - 1)%nat with (S (uuid_calls st - 1))
        by lia.
      rewrite seq_S, List.map_app.
      now replace (1 + (uuid_calls st - 1))%nat with (uuid_calls st) by lia.
    + intros p c Hin.
      apply List.in_app_or in Hin as [Hin|[[= <- <-]|[]]];
        [now apply (Hpix p) | exact Hne].
  - split; trivial.
    intros k g Hget.
    destruct (Hentry _ _ Hget) as (d & Hd & Hc & Hq & Hw).
    exists d. repeat split; trivial. apply List.in_or_app. now left.
Qed.

Lemma track_all_segments_ok (shape : Shape) (components seen : list Det.t)
  (st st' : Tracker) :
  track_all uuid4 shape components st = Returned st' ->
  segments_ok uuid4 shape seen st ->
  segments_ok uuid4 shape (seen ++ components) st'.
Proof.
  revert seen st.
  induction components as [|comp rest IH]; intros seen st Hrun Hok.
  - simpl in Hrun. injection Hrun as <-. now rewrite List.app_nil_r.
  - simpl in Hrun.
    destruct (track uuid4 shape st comp) as [e|st1] eqn:Estep;
      [discriminate|].
    replace (seen ++ comp :: rest)%list
      with ((seen ++ [comp]) ++ rest)%list
      by now rewrite <- List.app_assoc.
    apply (IH _ _ Hrun). exact (track_segments_ok _ _ _ _ _ Estep Hok).
Qed.

(** X21: When the loop runs to its end, every component it ends with points
    at a segment file the loop wrote, holding the crop of a detection with
    that category and confidence; the files written are named by the
    [uuid4] calls after the first (the first names the temporary upload),
    one file per call, in order; and every crop written has pixels. *)
Theorem run_tracker_segment_files (shape : Shape) (components : list Det.t)
  (st : Tracker) :
  run_tracker uuid4 shape components = Returned st ->
  (forall g, List.In g (PyDict.values (category_tracker st)) ->
     exists d, List.In d components
               /\ Det.category d = Seg.category g
               /\ Det.confidence d = Seg.confidence g
               /\ List.In (Seg.segment_path g, crop_of d)
                    (segments_written st))
  /\ List.map fst (segments_written st)
     = List.map (seg_path uuid4) (seq 1 (length (segments_written st)))
  /\ (forall p c, List.In (p, c) (segments_written st) ->
        crop_empty shape c = false).
Proof.
  intros Hrun.
  assert (Hok : segments_ok uuid4 shape components st).
  { apply (track_all_segments_ok shape components [] (mkTracker [] 1 []) st
             Hrun).
    split; simpl; [discriminate | lia | reflexivity | intros p c []]. }
  destruct Hok as [Hentry Hcalls Hnames Hpix]. split; [|split].
  - intros g Hg. unfold PyDict.values in Hg.
    apply List.in_map_iff in Hg as ([k g'] & Heq & Hin). simpl in Heq.
    subst g'.
    apply (PyDictFacts.in_get_some _ _ _
             (ok_nodup _ _ (run_tracker_ok uuid4 _ _ _ Hrun))) in Hin.
    exact (Hentry _ _ Hin).
  - rewrite Hnames. f_equal. f_equal.
    apply (f_equal (@length _)) in Hnames.
    now rewrite !length_map, length_seq in Hnames.
  - exact Hpix.
Qed.

Variable segment_clothing : bytes -> outcome (list Det.t * Shape).

(** X22: No garment is lost: when AnalyzeOutfit returns, every detection with
    confidence at least 0.75 and a category outside the exclusion set has
    its category in the list returned. *)
Theorem analyze_outfit_complete (image : bytes) (components : list Det.t)
  (shape : Shape) (output : list Seg.t) :
  segment_clothing image = Returned (components, shape) ->
  analyze_outfit uuid4 segment_clothing image = Returned output ->
  forall d, List.In d components ->
    (3 # 4 <= Det.confidence d)%Q ->
    ~ List.In (Det.category d) excluded_categories ->
    List.In (Det.category d) (List.map Seg.category output).
Proof.
  intros Hseg Hout.
  destruct (analyze_outfit_returned uuid4 segment_clothing _ _ Hout)
    as (components' & shape' & st & Hseg' & Hrun & ->).
  rewrite Hseg in Hseg'. injection Hseg' as <- <-.
  pose proof (run_tracker_ok uuid4 _ _ _ Hrun) as Hok.
  intros d Hd Hconf Hexcl.
  rewrite (values_categories _ _ Hok).
  apply PyDictFacts.mem_true_iff. unfold PyDict.mem.
  assert (Hp : passes_filter d = true).
  { unfold passes_filter. apply andb_true_intro. split.
    - now apply Qle_bool_iff.
    - apply negb_true_iff. unfold is_excluded.
      destruct (existsb _ _) eqn:Eex; [|reflexivity].
      apply List.existsb_exists in Eex as (c & Hc & Heq).
      apply String.eqb_eq in Heq. subst c. contradiction. }
  pose proof (ok_tracked _ _ Hok d Hd Hp) as Hget.
  now destruct (PyDict.get _ _).
Qed.

End OutfitSegments.

(** ** Tags *)

Module PyStrFacts.

Lemma split_nonempty (sep : ascii) (s : string) : PyStr.split sep s <> [].
Proof.
  destruct s as [|c r]; simpl; [discriminate|].
  destruct (Ascii.eqb c sep); [discriminate|].
  destruct (PyStr.split sep r); discriminate.
Qed.

(** No piece of a split holds the separator. *)
Lemma split_no_sep (sep : ascii) (s t : string) :
  List.In t (PyStr.split sep s) -> contains sep t = false.
Proof.
  revert t. induction s as [|c r IH]; simpl; intros t.
  - intros [<-|[]]. reflexivity.
  - destruct (Ascii.eqb c sep) eqn:E.
    + intros [<-|Hin]; [reflexivity | now apply IH].
    + pose proof (split_nonempty sep r) as Hne.
      destruct (PyStr.split sep r) as [|h tl]; [congruence|].
      intros [<-|Hin].
      * simpl. rewrite E. simpl. apply IH. now left.
      * apply IH. now right.
Qed.

(** Joining the pieces with the separator gives the string back. *)
Lemma join_split (sep : ascii) (s : string) :
  PyStr.join (String sep EmptyString) (PyStr.split sep s) = s.
Proof.
  induction s as [|c r IH]; simpl; [reflexivity|].
  pose proof (split_nonempty sep r) as Hne.
  destruct (Ascii.eqb_spec c sep) as [->|Hc].
  - destruct (PyStr.split sep r) as [|h tl]; [congruence|].
    simpl in *. now rewrite IH.
  - destruct (PyStr.split sep r) as [|h tl]; [congruence|].
    destruct tl; simpl in *; now rewrite <- IH.
Qed.

Lemma split_clean (sep : ascii) (p : string) :
  contains sep p = false -> PyStr.split sep p = [p].
Proof.
  induction p as [|c r IH]; [reflexivity|].
  simpl. intros Hp. apply orb_false_iff in Hp as [Hc Hr].
  now rewrite Hc, (IH Hr).
Qed.

Lemma split_app_sep (sep : ascii) (p tail : string) :
  contains sep p = false ->
  PyStr.split sep (String.append p (String sep tail))
  = p :: PyStr.split sep tail.
Proof.
  induction p as [|c r IH]; intros Hp.
  - change (String.append EmptyString (String sep tail))
      with (String sep tail).
    simpl. now rewrite Ascii.eqb_refl.
  - simpl in Hp. apply orb_false_iff in Hp as [Hc Hr].
    change (String.append (String c r) (String sep tail))
      with (String c (String.append r (String sep tail))).
    simpl. now rewrite Hc, (IH Hr).
Qed.

(** Splitting a join of separator-free pieces gives the pieces back. *)
Lemma split_join (sep : ascii) (parts : list string) :
  parts <> [] ->
  (forall t, List.In t parts -> contains sep t = false) ->
  PyStr.split sep (PyStr.join (String sep EmptyString) parts) = parts.
Proof.
  induction parts as [|p rest IH]; [congruence|]. intros _ Hclean.
  assert (Hp : contains sep p = false) by (apply Hclean; now left).
  destruct rest as [|q rest].
  - now apply split_clean.
  - specialize (IH ltac:(discriminate)
                  (fun t Ht => Hclean t (or_intror Ht))).
    change (PyStr.join (String sep EmptyString) (p :: q :: rest))
      with (String.append p
              (String sep (PyStr.join (String sep EmptyString) (q :: rest)))).
    now rewrite split_app_sep, IH.
Qed.

Lemma append_nil (t : string) : String.append EmptyString t = t.
Proof. reflexivity. Qed.

Lemma append_cons (c : ascii) (r t : string) :
  String.append (String c r) t = String c (String.append r t).
Proof. reflexivity. Qed.

Lemma append_nil_r (s : string) : String.append s EmptyString = s.
Proof.
  induction s as [|c r IH]; [reflexivity|].
  now rewrite append_cons, IH.
Qed.

Lemma append_assoc (a b c : string) :
  String.append (String.append a b) c = String.append a (String.append b c).
Proof.
  induction a as [|x r IH]; [reflexivity|].
  now rewrite !append_cons, IH.
Qed.

Lemma reverse_append (a b : string) :
  PyStr.reverse (String.append a b)
  = String.append (PyStr.reverse b) (PyStr.reverse a).
Proof.
  induction a as [|x r IH].
  - rewrite append_nil. simpl. now rewrite append_nil_r.
  - rewrite append_cons. simpl. now rewrite IH, append_assoc.
Qed.

Lemma reverse_involutive (s : string) :
  PyStr.reverse (PyStr.reverse s) = s.
Proof.
  induction s as [|c r IH]; [reflexivity|].
  simpl. rewrite reverse_append, IH. reflexivity.
Qed.

Lemma contains_append (c : ascii) (a b : string) :
  contains c (String.append a b) = contains c a || contains c b.
Proof.
  induction a as [|x r IH]; [reflexivity|].
  rewrite append_cons. simpl. now rewrite IH, orb_assoc.
Qed.

Lemma contains_reverse (c : ascii) (s : string) :
  contains c (PyStr.reverse s) = contains c s.
Proof.
  induction s as [|x r IH]; [reflexivity|].
  simpl. rewrite contains_append, IH. simpl.
  now rewrite orb_false_r, orb_comm.
Qed.

Section Strip.

Variable p1 : ascii -> bool.
Variable p2 : ascii -> ascii -> bool.
Variable p3 : ascii -> ascii -> ascii -> bool.

(** What is left of a string is one of its suffixes. *)
Lemma lstrip_by_suffix (s : string) :
  exists dropped, s = String.append dropped (PyStr.lstrip_by p1 p2 p3 s).
Proof.
  assert (H : forall n s, (String.length s <= n)%nat ->
            exists dropped, s = String.append dropped (PyStr.lstrip_by p1 p2 p3 s)).
  { clear s. induction n as [|n IH]; intros s Hlen.
    - destruct s; [exists EmptyString; reflexivity | simpl in Hlen; lia].
    - destruct s as [|c1 r1]; [exists EmptyString; reflexivity|].
      simpl in Hlen. simpl.
      destruct (p1 c1).
      { destruct (IH r1 ltac:(lia)) as (d & Hd).
        exists (String c1 d). rewrite append_cons. now rewrite <- Hd. }
      destruct r1 as [|c2 r2]; [exists EmptyString; reflexivity|].
      simpl in Hlen.
      destruct (p2 c1 c2).
      { destruct (IH r2 ltac:(lia)) as (d & Hd).
        exists (String c1 (String c2 d)). rewrite !append_cons.
        now rewrite <- Hd. }
      destruct r2 as [|c3 r3]; [exists EmptyString; reflexivity|].
      simpl in Hlen.
      destruct (p3 c1 c2 c3); [|exists EmptyString; reflexivity].
      destruct (IH r3 ltac:(lia)) as (d & Hd).
      exists (String c1 (String c2 (String c3 d))). rewrite !append_cons.
      now rewrite <- Hd. }
  exact (H (String.length s) s (le_n _)).
Qed.

(** What is left does not start with a strippable character. *)
Lemma lstrip_by_clear (s : string) : starts_strippable p1 p2 p3 (PyStr.lstrip_by p1 p2 p3 s) = false.
Proof.
  assert (H : forall n s, (String.length s <= n)%nat ->
            starts_strippable p1 p2 p3 (PyStr.lstrip_by p1 p2 p3 s) = false).
  { clear s. induction n as [|n IH]; intros s Hlen.
    - destruct s; [reflexivity | simpl in Hlen; lia].
    - destruct s as [|c1 r1]; [reflexivity|].
      simpl in Hlen. simpl.
      destruct (p1 c1) eqn:E1; [apply IH; lia|].
      destruct r1 as [|c2 r2]; [simpl; now rewrite E1|].
      simpl in Hlen.
      destruct (p2 c1 c2) eqn:E2; [apply IH; lia|].
      destruct r2 as [|c3 r3]; [simpl; now rewrite E1, E2|].
      simpl in Hlen.
      destruct (p3 c1 c2 c3) eqn:E3; [apply IH; lia|].
      simpl. now rewrite E1, E2, E3. }
  exact (H (String.length s) s (le_n _)).
Qed.

Lemma lstrip_by_fixed (s : string) :
  starts_strippable p1 p2 p3 s = false -> PyStr.lstrip_by p1 p2 p3 s = s.
Proof.
  destruct s as [|c1 r1]; [reflexivity|]. simpl.
  destruct (p1 c1); [discriminate|].
  destruct r1 as [|c2 r2]; [reflexivity|].
  destruct (p2 c1 c2); [discriminate|].
  destruct r2 as [|c3 r3]; [reflexivity|].
  destruct (p3 c1 c2 c3); [discriminate | reflexivity].
Qed.

Lemma lstrip_by_idem (s : string) : PyStr.lstrip_by p1 p2 p3 (PyStr.lstrip_by p1 p2 p3 s) = PyStr.lstrip_by p1 p2 p3 s.
Proof. apply lstrip_by_fixed, lstrip_by_clear. Qed.

(** A string that starts with a strippable character still does with
    more appended. *)
Lemma starts_strippable_prefix (a b : string) :
  starts_strippable p1 p2 p3 (String.append a b) = false ->
  starts_strippable p1 p2 p3 a = false.
Proof.
  destruct a as [|c1 r1]; [reflexivity|].
  rewrite append_cons. simpl.
  destruct (p1 c1); [discriminate|].
  destruct r1 as [|c2 r2]; [reflexivity|].
  rewrite append_cons.
  destruct (p2 c1 c2); [discriminate|].
  destruct r2 as [|c3 r3]; [reflexivity|].
  rewrite append_cons.
  now destruct (p3 c1 c2 c3).
Qed.

Lemma lstrip_by_contains (c : ascii) (s : string) :
  contains c s = false -> contains c (PyStr.lstrip_by p1 p2 p3 s) = false.
Proof.
  intros Hc. destruct (lstrip_by_suffix s) as (d & Hd).
  rewrite Hd, contains_append in Hc.
  now apply orb_false_iff in Hc as [_ Hc].
Qed.

End Strip.

(** What [rstrip] keeps is a prefix of the string. *)
Lemma rstrip_prefix (s : string) :
  exists dropped, s = String.append (PyStr.rstrip s) dropped.
Proof.
  unfold PyStr.rstrip.
  destruct (lstrip_by_suffix PyStr.is_space
              (fun c2 c1 => PyStr.is_space2 c1 c2)
              (fun c3 c2 c1 => PyStr.is_space3 c1 c2 c3)
              (PyStr.reverse s)) as (d & Hd).
  exists (PyStr.reverse d).
  rewrite <- reverse_append, <- Hd. now rewrite reverse_involutive.
Qed.

Lemma rstrip_idem (s : string) :
  PyStr.rstrip (PyStr.rstrip s) = PyStr.rstrip s.
Proof.
  unfold PyStr.rstrip. now rewrite reverse_involutive, lstrip_by_idem.
Qed.

(** Stripping the right end leaves the left end as it is. *)
Lemma lstrip_rstrip_lstrip (s : string) :
  PyStr.lstrip (PyStr.rstrip (PyStr.lstrip s))
  = PyStr.rstrip (PyStr.lstrip s).
Proof.
  unfold PyStr.lstrip at 1. apply lstrip_by_fixed.
  destruct (rstrip_prefix (PyStr.lstrip s)) as (d & Hd).
  apply (starts_strippable_prefix _ _ _ _ d). rewrite <- Hd.
  apply lstrip_by_clear.
Qed.

Lemma strip_idem (s : string) : PyStr.strip (PyStr.strip s) = PyStr.strip s.
Proof.
  unfold PyStr.strip. now rewrite lstrip_rstrip_lstrip, rstrip_idem.
Qed.

Lemma strip_contains (c : ascii) (s : string) :
  contains c s = false -> contains c (PyStr.strip s) = false.
Proof.
  intros Hc. unfold PyStr.strip, PyStr.rstrip.
  rewrite contains_reverse. apply lstrip_by_contains.
  rewrite contains_reverse. now apply lstrip_by_contains.
Qed.

(** A stripped string has no white space at either end. *)
Lemma stripped_ends (t : string) :
  PyStr.strip t = t ->
  starts_with_space t = false /\ ends_with_space t = false.
Proof.
  unfold starts_with_space, ends_with_space.
  intros Hs. split.
  - rewrite <- Hs. unfold PyStr.strip. rewrite <- lstrip_rstrip_lstrip.
    apply lstrip_by_clear.
  - rewrite <- Hs. unfold PyStr.strip, PyStr.rstrip.
    rewrite reverse_involutive. apply lstrip_by_clear.
Qed.

End PyStrFacts.

(** X23: Every tag AddItem parses out of the tags field is non-empty, is left
    as it is by [str.strip], neither starts nor ends with a white-space
    character (of Unicode, the string read as UTF-8), and holds no
    comma. *)
Theorem parse_tags_clean (tags_field t : string) :
  List.In t (parse_tags tags_field) ->
  clean_tag t /\ starts_with_space t = false /\ ends_with_space t = false.
Proof.
  unfold parse_tags, clean_tag, stripped. intros Hin.
  apply List.in_map_iff in Hin as (t0 & <- & Hin).
  apply List.filter_In in Hin as [Hin Hne].
  split; [split; [|split]|].
  - intros E. rewrite E in Hne. discriminate.
  - apply PyStrFacts.strip_idem.
  - apply PyStrFacts.strip_contains. eapply PyStrFacts.split_no_sep, Hin.
  - apply PyStrFacts.stripped_ends, PyStrFacts.strip_idem.
Qed.

(** X24: Tags written out with commas parse back to themselves: for a list of
    tags that are non-empty, left as they are by [str.strip] (which strips
    the white space of Unicode) and comma-free, as parsed tags are,
    [parse_tags (",".join(tags)) = tags]. *)
Theorem parse_tags_join (tag_list : list string) :
  (forall t, List.In t tag_list -> clean_tag t) ->
  parse_tags (PyStr.join "," tag_list) = tag_list.
Proof.
  intros Hclean. unfold parse_tags.
  destruct tag_list as [|t rest]; [reflexivity|].
  rewrite (PyStrFacts.split_join ","%char (t :: rest));
    [|discriminate|intros t' Ht'; now apply Hclean].
  induction (t :: rest) as [|x l IH]; [reflexivity|].
  destruct (Hclean x (or_introl eq_refl)) as (Hne & Hs & _).
  unfold stripped in Hs. simpl. rewrite Hs.
  destruct x; [congruence|]. simpl. f_equal; [exact Hs|].
  apply IH. intros t' Ht'. apply Hclean. now right.
Qed.

(** ** AddItem: new filenames and failures *)

Section AddItemMore.

Context `{Provider}.

(** X25: For a filename the Catalog Store does not hold (or with no catalog
    file yet), a successful AddItem puts the new entry after the existing
    ones, leaves every other entry as it was, and stores the upload under
    the filename in the image directory. *)
Theorem add_item_new_filename (w : World) (fname : string) (image : bytes)
  (cmt tags_field : string) (r : Response) :
  let old := match comments_file w with Content c => c | _ => [] end in
  PyDict.mem fname old = false ->
  result (add_item fname image cmt tags_field) w = Returned r ->
  let w' := after (add_item fname image cmt tags_field) w in
  exists cat',
    comments_file w' = Content cat'
    /\ PyDict.keys cat' = (PyDict.keys old ++ [fname])%list
    /\ PyDict.get fname cat'
       = Some (Entry (Some cmt) (Some (parse_tags tags_field)))
    /\ (forall other, other <> fname ->
        PyDict.get other cat' = PyDict.get other old)
    /\ image_dir w' !! fname = Some image
    /\ (forall other, other <> fname ->
        image_dir w' !! other = image_dir w !! other).
Proof.
  cbv zeta. intros Hmem Hok.
  destruct (add_item_success_world w fname image cmt tags_field r Hok)
    as (Hcf & Hdir & _).
  eexists. split; [exact Hcf|].
  split; [now apply PyDictFacts.keys_set_absent|].
  split; [apply PyDictFacts.get_set_same|].
  split; [intros other Hne; apply PyDictFacts.get_set_other; congruence|].
  rewrite Hdir. split; [apply lookup_insert_eq|].
  intros other Hne. apply lookup_insert_ne. congruence.
Qed.



(** X28: The item a successful AddItem appended is embedded under the text
    [comment + " " + " ".join(tags)], tags as parsed: the vector added to
    the index is what [process_image_text_pair] gives for the stored image
    and that text. *)
Theorem add_item_embeds_new_item (w : World) (fname : string) (image : bytes)
  (cmt tags_field : string) (r : Response) :
  result (add_item fname image cmt tags_field) w = Returned r ->
  let w' := after (add_item fname image cmt tags_field) w in
  exists v,
    index w' = (index w ++ [v])%list
    /\ metadata w'
       = (metadata w ++ [mkItem fname cmt (parse_tags tags_field)])%list
    /\ embeds w' (mkItem fname cmt (parse_tags tags_field)) v.
Proof.
  cbv zeta. unfold result at 1, after, embeds, embed_item, result.
  rewrite add_item_run. cbv zeta.
  destruct (comments_file w); try discriminate;
    (destruct (clip_forward image _) as [[ie te]|] eqn:Eclip; simpl;
     [intros _ | discriminate];
     eexists; split; [reflexivity|]; split; [reflexivity|];
     rewrite process_image_text_pair_run; simpl;
     rewrite lookup_insert_eq, Eclip; reflexivity).
Qed.

End AddItemMore.

(** ** More handlers on concrete worlds *)

Lemma get_all_items_read_only_witness :
  after get_all_items no_catalog_world = no_catalog_world
  /\ result get_all_items no_catalog_world = Returned []
  /\ result get_all_items (set_comments_file Corrupt one_item_world)
     = Raised (JSONDecodeError COMMENTS_FILE).
Proof.
  split; [|split].
  - exact (proj1 (get_all_items_read_only no_catalog_world)).
  - exact (proj1 (proj2 (get_all_items_read_only no_catalog_world))
             eq_refl).
  - exact (proj2 (proj2 (get_all_items_read_only
                           (set_comments_file Corrupt one_item_world)))
             eq_refl).
Defined.

Lemma get_all_items_lists_live_entries_witness :
  result get_all_items legacy_world
  = Returned [Listed.mk "old.jpg" "/images/old.jpg" "vintage scarf" []].
Proof.
  destruct (get_all_items_lists_live_entries legacy_world _ eq_refl)
    as (rows & Hrows & _).
  rewrite Hrows. vm_compute in Hrows. now injection Hrows as <-.
Defined.

Lemma add_item_then_listed_witness :
  exists rows,
    result get_all_items one_item_world = Returned rows
    /\ List.In (Listed.mk "a.jpg" "/images/a.jpg" "blue" ["casual"; "summer"])
         rows.
Proof.
  apply (add_item_then_listed empty_world "a.jpg" toy_image "blue"
           "casual,summer" (Message "Item added successfully")).
  vm_compute. reflexivity.
Defined.

Lemma delete_item_then_unlisted_witness :
  result get_all_items (after (delete_item "a.jpg") two_item_world)
  = Returned [Listed.mk "b.jpg" "/images/b.jpg" "green wool coat" ["winter"]]
  /\ forall row,
       List.In row
         [Listed.mk "b.jpg" "/images/b.jpg" "green wool coat" ["winter"]] ->
       Listed.filename row <> "a.jpg".
Proof.
  assert (Hrows : result get_all_items
                    (after (delete_item "a.jpg") two_item_world)
                  = Returned [Listed.mk "b.jpg" "/images/b.jpg"
                                "green wool coat" ["winter"]])
    by (vm_compute; reflexivity).
  split; [exact Hrows|].
  exact (delete_item_then_unlisted two_item_world "a.jpg" _ Hrows).
Defined.

Lemma rebuild_index_builds_live_entries_witness :
  metadata (after rebuild_index legacy_world)
  = [mkItem "old.jpg" "vintage scarf" []]
  /\ aligned (after rebuild_index legacy_world)
  /\ persisted (after rebuild_index legacy_world).
Proof.
  destruct (rebuild_index_builds_live_entries legacy_world
              rebuilt_message _ eq_refl)
    as (Hmd & Hal & Hper); [vm_compute; reflexivity|].
  split; [rewrite Hmd; vm_compute; reflexivity|].
  split; [exact Hal|]. apply Hper. rewrite Hmd. vm_compute. discriminate.
Defined.

Lemma rebuild_index_matches_listing_witness :
  exists rows,
    result get_all_items (after rebuild_index readded_world) = Returned rows
    /\ List.map listed_item rows
       = metadata (after rebuild_index readded_world).
Proof.
  apply (rebuild_index_matches_listing readded_world rebuilt_message).
  vm_compute. reflexivity.
Defined.

Lemma rebuild_index_dedups_witness :
  List.map filename (metadata readded_world) = ["a.jpg"; "a.jpg"]
  /\ List.NoDup
       (List.map filename (metadata (after rebuild_index readded_world))).
Proof.
  split; [vm_compute; reflexivity|].
  apply (rebuild_index_dedups readded_world
           [("a.jpg", Entry (Some "red") (Some []))]).
  - vm_compute. reflexivity.
  - repeat constructor. intros [].
Defined.

Lemma rebuild_index_failure_empties_witness :
  index undecodable_world = [10%Z]
  /\ result rebuild_index undecodable_world = Raised UnidentifiedImageError
  /\ after rebuild_index undecodable_world = reset_globals undecodable_world.
Proof.
  assert (Hraise : result rebuild_index undecodable_world
                   = Raised UnidentifiedImageError)
    by (vm_compute; reflexivity).
  split; [vm_compute; reflexivity|]. split; [exact Hraise|].
  exact (rebuild_index_failure_empties undecodable_world _ Hraise).
Defined.

Lemma delete_item_realigns_witness :
  metadata (after (delete_item "a.jpg") two_item_world)
  = [mkItem "b.jpg" "green wool coat" ["winter"]]
  /\ aligned (after (delete_item "a.jpg") two_item_world)
  /\ index_file (after (delete_item "a.jpg") two_item_world)
     = Content (index (after (delete_item "a.jpg") two_item_world)).
Proof.
  destruct (delete_item_realigns "a.jpg" "Item deleted successfully"
              two_item_world
              [("a.jpg", Entry (Some "blue") (Some ["casual"; "summer"]));
               ("b.jpg", Entry (Some "green wool coat") (Some ["winter"]))])
    as (_ & _ & Hmd & Hal & _ & Hif); try (vm_compute; reflexivity).
  split; [rewrite Hmd; vm_compute; reflexivity|].
  split; [exact Hal|]. apply Hif. rewrite Hmd. vm_compute. discriminate.
Defined.

Lemma delete_item_fails_after_removing_image_witness :
  image_dir no_catalog_world !! "a.jpg" = Some toy_image
  /\ image_dir (after (delete_item "a.jpg") no_catalog_world) !! "a.jpg"
     = None
  /\ result (delete_item "a.jpg") no_catalog_world
     = Returned
         (Error "[Errno 2] No such file or directory: 'image_comments.json'").
Proof.
  destruct (delete_item_fails_after_removing_image "a.jpg" no_catalog_world I)
    as (Hafter & Hres).
  split; [vm_compute; reflexivity|].
  split; [rewrite Hafter; vm_compute; reflexivity | exact Hres].
Defined.

Lemma delete_item_reembedding_fails_witness :
  (exists msg,
     result (delete_item "a.jpg") missing_image_world = Returned (Error msg))
  /\ index (after (delete_item "a.jpg") missing_image_world) = []
  /\ List.In (mkItem "b.jpg" "green wool coat" ["winter"])
       (metadata (after (delete_item "a.jpg") missing_image_world)).
Proof.
  destruct (delete_item_reembedding_fails "a.jpg" missing_image_world
              [("a.jpg", Entry (Some "blue") (Some ["casual"; "summer"]));
               ("b.jpg", Entry (Some "green wool coat") (Some ["winter"]))]
              (mkItem "b.jpg" "green wool coat" ["winter"]))
    as (Hmsg & Hidx & _ & Hin & _);
    try (vm_compute; reflexivity); try discriminate.
  - right. now left.
  - repeat split; assumption.
Defined.

Lemma restart_after_add_item_witness :
  result startup one_item_world = Returned tt
  /\ after startup one_item_world = one_item_world.
Proof.
  apply (restart_after_add_item empty_world "a.jpg" toy_image "blue"
           "casual,summer" (Message "Item added successfully")).
  vm_compute. reflexivity.
Defined.

Lemma startup_without_a_file_witness :
  result startup (set_index_file Missing one_item_world) = Returned tt
  /\ metadata_file (set_index_file Missing one_item_world)
     = Content [mkItem "a.jpg" "blue" ["casual"; "summer"]]
  /\ metadata (after startup (set_index_file Missing one_item_world)) = []
  /\ result startup (set_metadata_file Missing one_item_world)
     = Raised (FileNotFoundError "metadata.json").
Proof.
  destruct (startup_without_a_file (set_index_file Missing one_item_world))
    as [Hno _].
  destruct (startup_without_a_file (set_metadata_file Missing one_item_world))
    as [_ Hmd].
  destruct (Hno eq_refl) as (Hres & _ & Hmeta).
  destruct (Hmd [10%Z]) as (Hraise & _); try (vm_compute; reflexivity).
  repeat split; trivial.
Defined.

Lemma search_bounded_returns_witness :
  length (index restarted_world) = 1%nat
  /\ length (metadata restarted_world) = 0%nat
  /\ exists results,
       result (search_image toy_image "" 5 (Finite (4 # 10))) restarted_world
       = Returned results.
Proof.
  split; [reflexivity|]. split; [reflexivity|].
  apply (search_bounded_returns (H := toy_provider) restarted_world toy_image "" 2%Z 5
           (Finite (4 # 10))); vm_compute; reflexivity.
Defined.

Lemma search_at_most_k_witness :
  result (search_image toy_image "" 1 PosInf) two_item_world
  = Returned [mkItem "a.jpg" "blue" ["casual"; "summer"]]
  /\ (length [mkItem "a.jpg" "blue" ["casual"; "summer"]] <= 1)%nat.
Proof.
  assert (Hres : result (search_image toy_image "" 1 PosInf) two_item_world
                 = Returned [mkItem "a.jpg" "blue" ["casual"; "summer"]])
    by (vm_compute; reflexivity).
  split; [exact Hres|].
  exact (search_at_most_k two_item_world toy_image "" 1 PosInf _ Hres).
Defined.

Lemma search_bounded_ranked_witness :
  exists ranked,
    Permutation ranked
      [(64%Q, mkItem "a.jpg" "blue" ["casual"; "summer"]);
       (81%Q, mkItem "b.jpg" "green wool coat" ["winter"])]
    /\ Sorted nearer ranked
    /\ result (search_image toy_image "" 3 (Finite 70)) two_item_world
       = Returned (List.map snd
                     (List.filter (within (Finite 70)) (firstn 3 ranked))).
Proof.
  apply (search_bounded_ranked (H := toy_provider) two_item_world toy_image "" 2%Z 3 (Finite 70));
    vm_compute; reflexivity.
Defined.

Lemma search_all_sorted_witness :
  exists ranked,
    result (search_image toy_image "" 2 PosInf) two_item_world
    = Returned (List.map snd ranked)
    /\ Permutation ranked
         [(64%Q, mkItem "a.jpg" "blue" ["casual"; "summer"]);
          (81%Q, mkItem "b.jpg" "green wool coat" ["winter"])]
    /\ Sorted nearer ranked
    /\ Permutation (List.map snd ranked) (metadata two_item_world).
Proof.
  apply (search_all_sorted (H := toy_provider) two_item_world toy_image "" 2%Z);
    vm_compute; reflexivity.
Defined.

Lemma search_returns_k_witness :
  exists results,
    result (search_image toy_image "" 5 PosInf) two_item_world
    = Returned results
    /\ length results = 5%nat.
Proof.
  apply (search_returns_k (H := toy_provider) two_item_world toy_image "" 2%Z 3);
    try (vm_compute; reflexivity).
  vm_compute. discriminate.
Defined.

Lemma search_empty_catalog_witness :
  result (search_image toy_image "" 3 (Finite (4 # 10)))
    (@empty_world toy_provider)
  = Returned []
  /\ result (search_image toy_image "" 3 (Finite (FLT_MAX + 1)))
       (@empty_world toy_provider)
     = Raised IndexError
  /\ result (search_image toy_image "" 3
               (Finite (inject_Z (34028234 * 10 ^ 31))))
       (@empty_world toy_provider)
     = Raised IndexError
  /\ result (search_image toy_image "" 3
               (Finite (inject_Z (34028233 * 10 ^ 31))))
       (@empty_world toy_provider)
     = Returned [].
Proof.
  split; [|split; [|split]].
  - apply (search_empty_catalog (H := toy_provider) empty_world toy_image "" 2%Z 3
             (Finite (4 # 10))); try reflexivity. lia.
  - apply (search_empty_catalog (H := toy_provider) empty_world toy_image "" 2%Z 3
             (Finite (FLT_MAX + 1))); try reflexivity. lia.
  - apply (search_empty_catalog (H := toy_provider) empty_world toy_image "" 2%Z 3
             (Finite (inject_Z (34028234 * 10 ^ 31)))); try reflexivity. lia.
  - apply (search_empty_catalog (H := toy_provider) empty_world toy_image "" 2%Z 3
             (Finite (inject_Z (34028233 * 10 ^ 31)))); try reflexivity. lia.
Defined.

Lemma run_tracker_segment_files_witness :
  let st :=
    mkTracker
      [("shirt, blouse", Seg.mk "shirt, blouse" (97 # 100) "segments/2.jpg")]
      3
      [("segments/1.jpg", (10, 20, 110, 220)%Z);
       ("segments/2.jpg", (12, 18, 108, 221)%Z)] in
  run_tracker toy_uuid4 (400, 300)%Z toy_detections = Returned st
  /\ List.map fst (segments_written st)
     = List.map (seg_path toy_uuid4) (seq 1 (length (segments_written st)))
  /\ (forall p c, List.In (p, c) (segments_written st) ->
        crop_empty (400, 300)%Z c = false).
Proof.
  cbv zeta.
  assert (Hrun : run_tracker toy_uuid4 (400, 300)%Z toy_detections
                 = Returned
                     (mkTracker
                        [("shirt, blouse",
                          Seg.mk "shirt, blouse" (97 # 100) "segments/2.jpg")]
                        3
                        [("segments/1.jpg", (10, 20, 110, 220)%Z);
                         ("segments/2.jpg", (12, 18, 108, 221)%Z)]))
    by (vm_compute; reflexivity).
  split; [exact Hrun|].
  exact (proj2 (run_tracker_segment_files toy_uuid4 (400, 300)%Z
                  toy_detections _ Hrun)).
Defined.

Lemma analyze_outfit_complete_witness :
  let output := [Seg.mk "shirt, blouse" (97 # 100) "segments/2.jpg"] in
  toy_segment_clothing toy_image = Returned (toy_detections, (400, 300)%Z)
  /\ analyze_outfit toy_uuid4 toy_segment_clothing toy_image = Returned output
  /\ List.In "shirt, blouse" (List.map Seg.category output).
Proof.
  cbv zeta.
  assert (Hseg : toy_segment_clothing toy_image
                 = Returned (toy_detections, (400, 300)%Z))
    by reflexivity.
  assert (Hout : analyze_outfit toy_uuid4 toy_segment_clothing toy_image
                 = Returned [Seg.mk "shirt, blouse" (97 # 100)
                               "segments/2.jpg"])
    by (vm_compute; reflexivity).
  split; [exact Hseg|]. split; [exact Hout|].
  apply (analyze_outfit_complete toy_uuid4 toy_segment_clothing toy_image
           toy_detections (400, 300)%Z _ Hseg Hout
           (Det.mk "shirt, blouse" (9 # 10) (10, 20, 110, 220)%Q)).
  - now left.
  - vm_compute. discriminate.
  - intros Hex. vm_compute in Hex.
    repeat (destruct Hex as [Hex|Hex]; [discriminate|]). exact Hex.
Defined.

Lemma parse_tags_clean_witness :
  let tags_field := ("  casual" ++ NBSP ++ ", ," ++ NBSP ++ "summer  ")%string in
  parse_tags tags_field = ["casual"; "summer"]
  /\ clean_tag "casual"
  /\ starts_with_space "casual" = false
  /\ ends_with_space "casual" = false.
Proof.
  cbv zeta. split; [vm_compute; reflexivity|].
  apply (parse_tags_clean
           ("  casual" ++ NBSP ++ ", ," ++ NBSP ++ "summer  ")%string).
  vm_compute. now left.
Defined.

(** No-break spaces are stripped, and a tag of nothing else is dropped. *)
Example parse_tags_nbsp :
  parse_tags ("x" ++ NBSP ++ "," ++ NBSP ++ ",y") = ["x"; "y"].
Proof. vm_compute. reflexivity. Qed.

(** A tag that ends with a no-break space is not one [parse_tags] makes,
    and does not parse back to itself. *)
Example tag_with_nbsp :
  let t := ("x" ++ NBSP)%string in
  PyStr.strip t = "x"
  /\ ~ clean_tag t
  /\ ends_with_space t = true
  /\ parse_tags (PyStr.join "," [t]) = ["x"].
Proof.
  cbv zeta. split; [vm_compute; reflexivity|].
  split; [|split; vm_compute; reflexivity].
  intros (_ & Hs & _). vm_compute in Hs. discriminate.
Qed.

Lemma parse_tags_join_witness :
  PyStr.join "," ["casual"; "summer"] = "casual,summer"
  /\ parse_tags "casual,summer" = ["casual"; "summer"].
Proof.
  split; [reflexivity|].
  apply (parse_tags_join ["casual"; "summer"]).
  intros t [<-|[<-|[]]]; repeat split; discriminate.
Defined.

Lemma add_item_new_filename_witness :
  exists cat',
    comments_file two_item_world = Content cat'
    /\ PyDict.keys cat' = ["a.jpg"; "b.jpg"]
    /\ image_dir two_item_world !! "b.jpg" = Some [Byte.x03].
Proof.
  destruct (add_item_new_filename one_item_world "b.jpg" [Byte.x03]
              "green wool coat" "winter" (Message "Item added successfully"))
    as (cat' & Hcf & Hkeys & _ & _ & Himg & _);
    try (vm_compute; reflexivity).
  exists cat'. repeat split; assumption.
Defined.



Lemma add_item_embeds_new_item_witness :
  exists v,
    index one_item_world = [v]
    /\ metadata one_item_world = [mkItem "a.jpg" "blue" ["casual"; "summer"]]
    /\ embeds one_item_world (mkItem "a.jpg" "blue" ["casual"; "summer"]) v.
Proof.
  apply (add_item_embeds_new_item empty_world "a.jpg" toy_image "blue"
           "casual,summer" (Message "Item added successfully")).
  vm_compute. reflexivity.
Defined.
